(** * fastq_viewer: wrapping and interleaving FASTQ records for a terminal

    A shallow embedding of [fastq_viewer.py].  Python strings are modelled as
    [string] (characters are code points below 256), Python lists as [list],
    unbounded integers as [nat] (lengths, line numbers) or [Z] (the column
    count, character codes), and the float produced by [/] as a binary64
    [float].  Text written with [print] in [print_fastq] is collected, one
    entry per call, in a list of lines; a call to [die] (which prints its
    message and exits) and an uncaught exception end the run with an
    [outcome], and [output] gives all a run writes on standard output. *)

From Stdlib Require Import ZArith List Bool Ascii String DecimalString Floats
  Uint63 Lia.
Import ListNotations.

Local Open Scope list_scope.
Local Open Scope string_scope.
Local Open Scope Z_scope.

(** ** Python built-ins used by the script *)

Module Py.

Definition ord (c : ascii) : Z := Z.of_N (N_of_ascii c).

(** Truth value of a variable holding [None] or a [str]. *)
Definition truthy (o : option string) : bool :=
  match o with
  | Some (String _ _) => true
  | _ => false
  end.

Definition nonempty (s : string) : bool :=
  match s with
  | String _ _ => true
  | EmptyString => false
  end.

(** [str.isspace] on one character: TAB..CR, FS..US, space, NEL and NBSP. *)
Definition isspace (c : ascii) : bool :=
  let n := ord c in
  ((9 <=? n) && (n <=? 13)) || ((28 <=? n) && (n <=? 32))
  || (n =? 133) || (n =? 160).

Fixpoint lstrip (s : string) : string :=
  match s with
  | String c r => if isspace c then lstrip r else s
  | EmptyString => EmptyString
  end.

Fixpoint rstrip (s : string) : string :=
  match s with
  | EmptyString => EmptyString
  | String c r =>
      match rstrip r with
      | EmptyString => if isspace c then EmptyString else String c EmptyString
      | r' => String c r'
      end
  end.

(** [str.strip()] with no argument: whitespace goes from both ends. *)
Definition strip (s : string) : string := rstrip (lstrip s).

Definition startswith (s p : string) : bool := String.prefix p s.

(** [''.join(parts)] *)
Definition join (parts : list string) : string := String.concat "" parts.

(** [l[i]] on a list: negative indices count from the end. *)
Definition index {A} (l : list A) (i : Z) : option A :=
  let n := Z.of_nat (List.length l) in
  if (0 <=? i) && (i <? n) then nth_error l (Z.to_nat i)
  else if (- n <=? i) && (i <? 0) then nth_error l (Z.to_nat (n + i))
  else None.

(** [float(z)] for an integer small enough to be represented exactly. *)
Definition float_of_int (z : Z) : float :=
  if z <? 0 then PrimFloat.opp (PrimFloat.of_uint63 (Uint63.of_Z (- z)))
  else PrimFloat.of_uint63 (Uint63.of_Z z).

(** [int(f)]: truncation towards zero; [None] on an infinity or a NaN (which
    the quotient of two integers never is). *)
Definition int_of_float (f : float) : option Z :=
  match Prim2SF f with
  | S754_zero _ => Some 0
  | S754_finite s m e =>
      let a := if 0 <=? e then Z.shiftl (Z.pos m) e
               else Z.shiftr (Z.pos m) (- e) in
      Some (if s then - a else a)
  | S754_infinity _ | S754_nan => None
  end.

End Py.

(** ** Exceptions *)

(** Exceptions that reach the top level.  [ValueError] is the one [int]
    raises, inside [ansiwrap], on a text that is no number. *)
Inductive exn : Type :=
| ValueOutOfRange (c : ascii) (line : string)
| LengthsDiffer (l1 l2 : nat)
| ZeroDivisionError
| TypeError
| OverflowError
| IndexError
| ValueError (literal : string).

Inductive result (A : Type) : Type :=
| Ok (a : A)
| Raise (e : exn).
Arguments Ok {A} a.
Arguments Raise {A} e.

Definition bind {A B} (r : result A) (k : A -> result B) : result B :=
  match r with
  | Ok a => k a
  | Raise e => Raise e
  end.

Notation "x <- r ;; k" := (bind r (fun x => k))
  (at level 61, r at next level, right associativity).

(** ** The [ansiwrap] package

    [fastq_viewer.py] imports two functions of the third-party package
    [ansiwrap], which is no part of the repository: [ansilen] and
    [ansi_terminate_lines].  They are modelled here after the package
    (release 0.8.4).  Both rest on its regular expression
    [ANSIRE = '\x1b\\[(K|.*?m)'].  [ansilen] is the length of a text once the
    matches of [ANSIRE] are removed (releases that also normalise Unicode
    leave ASCII text as it is; the statements that depend on the value of
    [ansilen] are about ASCII text).  [ansi_terminate_lines] walks the lines
    with an [ANSIState] object, which remembers the colour in effect and
    raises an exception on a code it cannot read; that object is kept
    abstract (class [AnsiState]) and the loop around it is written out, so
    that what is proved holds for every colour state. *)

Module Ansiwrap.

Definition ESC : ascii := ascii_of_nat 27.
Definition LF : ascii := ascii_of_nat 10.

(** [.*?m] at the head of [s]: the shortest run of characters other than a
    newline that ends in [m]. *)
Fixpoint dot_lazy_m (s : string) : option string :=
  match s with
  | EmptyString => None
  | String c r =>
      if Ascii.eqb c "m" then Some "m"
      else if Ascii.eqb c LF then None
      else option_map (String c) (dot_lazy_m r)
  end.

(** A match of [ANSIRE] at the head of [s]: the text of its group. *)
Definition ansire_group (s : string) : option string :=
  match s with
  | String e (String b r) =>
      if Ascii.eqb e ESC && Ascii.eqb b "[" then
        match r with
        | String k _ => if Ascii.eqb k "K" then Some "K" else dot_lazy_m r
        | EmptyString => None
        end
      else None
  | _ => None
  end.

(** [ANSIRE.sub('', s)]: [skip] counts the characters of a match still to
    be dropped. *)
Fixpoint sub_ansire (skip : nat) (s : string) : string :=
  match s with
  | EmptyString => EmptyString
  | String c r =>
      match skip with
      | S k => sub_ansire k r
      | O =>
          match ansire_group s with
          | Some g => sub_ansire (S (String.length g)) r
          | None => String c (sub_ansire 0 r)
          end
      end
  end.

Definition strip_color (s : string) : string := sub_ansire 0 s.

Definition ansilen (s : string) : nat := String.length (strip_color s).

(** [ANSIRE.findall(s)]: the group of each match, left to right. *)
Fixpoint findall_ansire (skip : nat) (s : string) : list string :=
  match s with
  | EmptyString => []
  | String c r =>
      match skip with
      | S k => findall_ansire k r
      | O =>
          match ansire_group s with
          | Some g => g :: findall_ansire (S (String.length g)) r
          | None => findall_ansire 0 r
          end
      end
  end.

(** The interface of [ANSIState]: a fresh state, [consume(code)], which
    updates the state or raises an exception, and [code()], the escape
    sequence that restores the state (empty when no colour is in effect). *)
Class AnsiState (S : Type) : Type := {
  fresh : S;
  consume : S -> string -> result S;
  code : S -> string
}.

Definition RESET : string := String ESC "[0m".

Section Terminate.
Context {S : Type} {A : AnsiState S}.

(** [for c in codes: state.consume(c)] *)
Fixpoint consume_all (state : S) (codes : list string) : result S :=
  match codes with
  | [] => Ok state
  | c :: rest => state <- consume state c ;; consume_all state rest
  end.

(** The loop of [ansi_terminate_lines]; [end_code] is [None] before the
    first line. *)
Fixpoint terminate_loop (state : S) (end_code : option string)
    (lines : list string) : result (list string) :=
  match lines with
  | [] => Ok []
  | line :: rest =>
      let codes := findall_ansire 0 line in
      state <- consume_all state codes ;;
      let line := match end_code with
                  | Some (String _ _ as p) => p ++ line
                  | _ => line
                  end in
      let end_code := code state in
      let line := if Py.nonempty end_code then line ++ RESET else line in
      term_lines <- terminate_loop state (Some end_code) rest ;;
      Ok (line :: term_lines)
  end.

Definition ansi_terminate_lines (lines : list string)
    : result (list string) :=
  terminate_loop fresh None lines.
End Terminate.

(** The colour state of the package on the basic colour codes, to compute
    with.  It keeps three registers, foreground, background and style.  A
    code is a list of decimal numbers separated by semicolons and closed by
    [m]: 0 clears the registers, 1 to 9 set the style, 30 to 37 the
    foreground, 40 to 47 the background; a parameter that is no decimal
    number raises [ValueError], as [int] does.  [code()] restores the
    registers that are set, foreground first, then background, then style.
    Numbers outside these ranges (extended and bright colours, codes that
    switch one attribute off) are not modelled: they leave the registers
    alone here, and so does the erase-line code [K]. *)
Module Sgr.
Record t : Type := {
  fg : option nat;
  bg : option nat;
  style : option nat
}.

Definition none : t := {| fg := None; bg := None; style := None |}.
End Sgr.

(** [s.split(';')]; [cur] is the field being read. *)
Fixpoint split_fields (s cur : string) : list string :=
  match s with
  | EmptyString => [cur]
  | String c r =>
      if Ascii.eqb c ";" then cur :: split_fields r EmptyString
      else split_fields r (cur ++ String c EmptyString)
  end.

(** [int(p)] on a field of a code. *)
Definition sgr_number (p : string) : result nat :=
  match NilZero.uint_of_string p with
  | Some d => Ok (Nat.of_uint d)
  | None => Raise (ValueError p)
  end.

Definition sgr_set (st : Sgr.t) (n : nat) : Sgr.t :=
  if Nat.eqb n 0 then Sgr.none
  else if Nat.leb 1 n && Nat.leb n 9 then
    {| Sgr.fg := Sgr.fg st; Sgr.bg := Sgr.bg st; Sgr.style := Some n |}
  else if Nat.leb 30 n && Nat.leb n 37 then
    {| Sgr.fg := Some n; Sgr.bg := Sgr.bg st; Sgr.style := Sgr.style st |}
  else if Nat.leb 40 n && Nat.leb n 47 then
    {| Sgr.fg := Sgr.fg st; Sgr.bg := Some n; Sgr.style := Sgr.style st |}
  else st.

Fixpoint sgr_fields (st : Sgr.t) (fields : list string) : result Sgr.t :=
  match fields with
  | [] => Ok st
  | p :: rest => n <- sgr_number p ;; sgr_fields (sgr_set st n) rest
  end.

Definition sgr_consume (st : Sgr.t) (c : string) : result Sgr.t :=
  if String.eqb c "K" then Ok st
  else sgr_fields st
         (split_fields (String.substring 0 (String.length c - 1) c)
                       EmptyString).

Definition sgr_code (st : Sgr.t) : string :=
  let set := flat_map (fun r => match r with Some n => [n] | None => [] end)
                      [Sgr.fg st; Sgr.bg st; Sgr.style st] in
  match set with
  | [] => EmptyString
  | _ =>
      String ESC
        ("[" ++ String.concat ";"
                  (map (fun n => NilZero.string_of_uint (Nat.to_uint n)) set)
             ++ "m")
  end.

#[export] Instance SgrState : AnsiState Sgr.t := {
  fresh := Sgr.none;
  consume := sgr_consume;
  code := sgr_code
}.

End Ansiwrap.

(** ** The script *)

Import Ansiwrap.

(** The argument of a call to [die(msg)]: [die] prints the message and exits
    with status 1.  Each constructor is one format string of the script and
    carries the values interpolated into it (the file name, which comes from
    [fileinput], is left out). *)
Inductive message : Type :=
| UnableToDetermineLength (l1 l2 : nat) (line : string)
| BadMaxQuality (got : string)
| BadValue (lineno : nat) (line : string)
| QualityLonger (lineno : nat) (quality_len sequence_len : nat).

Definition is_upper (c : ascii) : bool :=
  (Py.ord "A" <=? Py.ord c) && (Py.ord c <=? Py.ord "Z").

(** [re.sub('[^A-Z]+', '', line)] *)
Fixpoint ansistrip (line : string) : string :=
  match line with
  | EmptyString => EmptyString
  | String c r => if is_upper c then String c (ansistrip r) else ansistrip r
  end.

Definition colorless_len (line : string) : nat + message :=
  let l1 := ansilen line in
  let l2 := String.length (ansistrip line) in
  if negb (Nat.eqb l1 l2) then inr (UnableToDetermineLength l1 l2 line)
  else inl l1.

Definition COLOR_BUCKETS : list string :=
  [ String ESC "[1;30m"; String ESC "[35m"; String ESC "[31m";
    String ESC "[33m"; String ESC "[37m"; String ESC "[32m";
    String ESC "[34m"; String ESC "[36m" ].

Definition COLOR_END : string := String ESC "[0m".

(** [ord(max_quality)] on a [str]: only a string of length one has a code. *)
Definition ord_str (s : string) : result Z :=
  match s with
  | String c EmptyString => Ok (Py.ord c)
  | _ => Raise TypeError
  end.

(** [a / b] on two integers: a float, or [ZeroDivisionError]. *)
Definition truediv (a b : Z) : result float :=
  if b =? 0 then Raise ZeroDivisionError
  else Ok (PrimFloat.div (Py.float_of_int a) (Py.float_of_int b)).

Definition int (f : float) : result Z :=
  match Py.int_of_float f with
  | Some z => Ok z
  | None => Raise OverflowError
  end.

(** The bucket of one quality character: the quotient, truncated by [int],
    then [min] with the last index. *)
Definition bucket_of (c : ascii) (max_quality : string) : result Z :=
  m <- ord_str max_quality ;;
  f <- truediv (Z.of_nat (List.length COLOR_BUCKETS) * (Py.ord c - Py.ord "!"))
               (m - Py.ord "!") ;;
  bucket <- int f ;;
  Ok (Z.min (Z.of_nat (List.length COLOR_BUCKETS) - 1) bucket).

(** The body of the loop of [colorize_quality] over the characters [todo] of
    [line]. *)
Fixpoint colorize_chars (line todo : string) (max_quality : string)
    : result string :=
  match todo with
  | EmptyString => Ok EmptyString
  | String c rest =>
      if (Py.ord c <? Py.ord "!") || (Py.ord "~" <? Py.ord c)
      then Raise (ValueOutOfRange c line)
      else
        bucket <- bucket_of c max_quality ;;
        start <- match Py.index COLOR_BUCKETS bucket with
                 | Some s => Ok s
                 | None => Raise IndexError
                 end ;;
        out <- colorize_chars line rest max_quality ;;
        Ok (start ++ String c EmptyString ++ COLOR_END ++ out)
  end.

Definition colorize_quality (line : string) (max_quality : string)
    : result string :=
  colorize_chars line line max_quality.

(** [length == columns]; [columns] is [None] when the option was not given. *)
Definition at_width (length : nat) (columns : option Z) : bool :=
  match columns with
  | Some w => Z.of_nat length =? w
  | None => false
  end.

(** The [for c in text] loop of [wrap]: the current [line] and the closed
    [lines]. *)
Fixpoint wrap_scan (strip_ansi : bool) (columns : option Z)
    (text line : string) (lines : list string) : string * list string :=
  match text with
  | EmptyString => (line, lines)
  | String c rest =>
      let line := line ++ String c EmptyString in
      let length := if strip_ansi then String.length (ansistrip line)
                    else String.length line in
      if at_width length columns
      then wrap_scan strip_ansi columns rest EmptyString (lines ++ [line])%list
      else wrap_scan strip_ansi columns rest line lines
  end.

(** [lines] as [wrap] holds it after [if line: lines.append(line)]. *)
Definition wrap_lines (text : string) (strip_ansi : bool)
    (columns : option Z) : list string :=
  let (line, lines) := wrap_scan strip_ansi columns text EmptyString [] in
  if Py.nonempty line then (lines ++ [line])%list else lines.

Module Args.
(** The parsed command line. *)
Record t : Type := {
  colorize_quality : bool;
  columns : option Z;
  skip_lines : bool;
  max_quality : string
}.
End Args.

Module Call.
(** The arguments of one call to [print_fastq]: the record handed to the
    renderer. *)
Record t : Type := {
  at_line : string;
  sequence : string;
  plus_line : string;
  quality : string
}.
End Call.

Module St.
(** The local variables of [start] that the loop updates. *)
Record t : Type := {
  at_line : option string;
  plus_line : option string;
  sequence : list string;
  quality : list string;
  quality_len : nat;
  sequence_len : nat
}.

Definition init : t := {|
  at_line := None; plus_line := None; sequence := []; quality := [];
  quality_len := 0; sequence_len := 0
|}.

(** [at_line = line] *)
Definition set_at_line (line : string) (st : t) : t := {|
  at_line := Some line; plus_line := plus_line st;
  sequence := sequence st; quality := quality st;
  quality_len := quality_len st; sequence_len := sequence_len st
|}.

(** [plus_line = line] *)
Definition set_plus_line (line : string) (st : t) : t := {|
  at_line := at_line st; plus_line := Some line;
  sequence := sequence st; quality := quality st;
  quality_len := quality_len st; sequence_len := sequence_len st
|}.

(** [sequence.append(line); sequence_len += n] *)
Definition push_sequence (line : string) (n : nat) (st : t) : t := {|
  at_line := at_line st; plus_line := plus_line st;
  sequence := (sequence st ++ [line])%list; quality := quality st;
  quality_len := quality_len st;
  sequence_len := (sequence_len st + n)%nat
|}.

(** [quality.append(line); quality_len += len(line)] *)
Definition push_quality (line : string) (st : t) : t := {|
  at_line := at_line st; plus_line := plus_line st;
  sequence := sequence st; quality := (quality st ++ [line])%list;
  quality_len := (quality_len st + String.length line)%nat;
  sequence_len := sequence_len st
|}.
End St.

(** How a run ends: the input is exhausted ([st] holds the loop's variables at
    that point; a record still being assembled is dropped), [die] was called
    with a message, which it printed, or an exception was raised. *)
Inductive outcome : Type :=
| Finished (st : St.t)
| Died (m : message)
| Raised (e : exn).

Inductive control : Type :=
| Next (st : St.t)
| Halt (o : outcome).

(** One pass through the body of the input loop: the lines [print_fastq]
    printed, the record handed to it, and what comes next. *)
Record iteration : Type := {
  printed : list string;
  handed : option Call.t;
  after : control
}.

(** A whole run: the lines printed by [print_fastq], the calls to
    [print_fastq] in order, and how the run ended.  The one line that is not
    printed by [print_fastq], the message of [die], is in [exit]: [Died m]
    stands for [m] printed on standard output and the exit with status 1. *)
Record run : Type := {
  stdout : list string;
  calls : list Call.t;
  exit : outcome
}.

(** What is written on standard output: a line of [print_fastq], or the
    message of [die]. *)
Inductive written : Type :=
| Line (text : string)
| Message (m : message).

(** All a run writes on standard output: the lines of [print_fastq], then,
    when the run ended in [die], the message [die] printed before it
    exited.  (The traceback of an uncaught exception goes to standard
    error.) *)
Definition output (r : run) : list written :=
  (map Line (stdout r)
   ++ match exit r with
      | Died m => [Message m]
      | Finished _ | Raised _ => []
      end)%list.

Definition silent (c : control) : iteration :=
  {| printed := []; handed := None; after := c |}.

(** The test on [args.max_quality] at the start of [start]. *)
Definition bad_max_quality (max_quality : string) : bool :=
  negb (Nat.eqb (String.length max_quality) 1)
  || String.ltb max_quality "!" || String.ltb "~" max_quality.

(** [if not args.columns: args.columns = get_columns()] *)
Definition default_columns (get_columns : Z) (args : Args.t) : Args.t :=
  match Args.columns args with
  | None | Some 0 =>
      {| Args.colorize_quality := Args.colorize_quality args;
         Args.columns := Some get_columns;
         Args.skip_lines := Args.skip_lines args;
         Args.max_quality := Args.max_quality args |}
  | Some _ => args
  end.

Section Viewer.
Context {S : Type} {A : AnsiState S}.

(** [wrap] returns [lines] as they are in raw count mode, and what
    [ansi_terminate_lines] makes of them, or the exception it raises, in
    content count mode. *)
Definition wrap (text : string) (strip_ansi : bool) (columns : option Z)
    : if strip_ansi then result (list string) else list string :=
  let lines := wrap_lines text strip_ansi columns in
  if strip_ansi return (if strip_ansi then result (list string)
                        else list string)
  then ansi_terminate_lines lines else lines.

(** The loop of [print_fastq] over the zipped segments: the lines printed
    and the exception that ended the loop, if any. *)
Fixpoint print_pairs (args : Args.t) (pairs : list (string * string))
    : list string * option exn :=
  match pairs with
  | [] => ([], None)
  | (sequence_line, quality_line) :: rest =>
      if negb (Nat.eqb (ansilen sequence_line) (ansilen quality_line)) then
        ([sequence_line; quality_line],
         Some (LengthsDiffer (ansilen sequence_line) (ansilen quality_line)))
      else
        match (if Args.colorize_quality args
               then colorize_quality quality_line (Args.max_quality args)
               else Ok quality_line) with
        | Raise e => ([sequence_line], Some e)
        | Ok quality_line =>
            let (out, e) := print_pairs args rest in
            ((sequence_line :: quality_line ::
               (if Args.skip_lines args then [EmptyString] else []))
             ++ out, e)%list
        end
  end.

(** [print_fastq]: the lines printed and the exception that ended the
    call, if any.  The header is printed before the sequence is wrapped. *)
Definition print_fastq (args : Args.t) (c : Call.t)
    : list string * option exn :=
  match wrap (Call.sequence c) true (Args.columns args) with
  | Raise e => ([Call.at_line c], Some e)
  | Ok sequence_lines =>
      let pairs :=
        combine sequence_lines
                (wrap (Call.quality c) false (Args.columns args)) in
      match print_pairs args pairs with
      | (out, None) =>
          (Call.at_line c :: out ++ [Call.plus_line c], None)%list
      | (out, Some e) => (Call.at_line c :: out, Some e)
      end
  end.

(** The body of [for lineno, line in enumerate(fileinput.input(...))]. *)
Definition body (args : Args.t) (lineno : nat) (st : St.t) (raw : string)
    : iteration :=
  let line := Py.strip raw in
  match St.at_line st with
  | None | Some EmptyString =>
      if negb (Py.startswith line "@")
      then silent (Halt (Died (BadValue lineno line)))
      else silent (Next (St.set_at_line line st))
  | Some at_line =>
      match St.plus_line st with
      | None | Some EmptyString =>
          if Py.startswith line "+"
          then silent (Next (St.set_plus_line line st))
          else
            match colorless_len line with
            | inr m => silent (Halt (Died m))
            | inl n => silent (Next (St.push_sequence line n st))
            end
      | Some plus_line =>
          let st := St.push_quality line st in
          if Nat.eqb (St.quality_len st) (St.sequence_len st) then
            let c := {| Call.at_line := at_line;
                        Call.sequence := Py.join (St.sequence st);
                        Call.plus_line := plus_line;
                        Call.quality := Py.join (St.quality st) |} in
            match print_fastq args c with
            | (out, None) =>
                {| printed := out; handed := Some c; after := Next St.init |}
            | (out, Some e) =>
                {| printed := out; handed := Some c;
                   after := Halt (Raised e) |}
            end
          else if Nat.ltb (St.sequence_len st) (St.quality_len st) then
            silent (Halt (Died (QualityLonger lineno (St.quality_len st)
                                              (St.sequence_len st))))
          else silent (Next st)
      end
  end.

(** The input loop, from line number [lineno] and state [st]. *)
Fixpoint loop (args : Args.t) (lineno : nat) (st : St.t)
    (input : list string) : run :=
  match input with
  | [] => {| stdout := []; calls := []; exit := Finished st |}
  | raw :: rest =>
      let it := body args lineno st raw in
      let here := match handed it with Some c => [c] | None => [] end in
      match after it with
      | Halt o => {| stdout := printed it; calls := here; exit := o |}
      | Next st' =>
          let r := loop args (Datatypes.S lineno) st' rest in
          {| stdout := (printed it ++ stdout r)%list;
             calls := (here ++ calls r)%list;
             exit := exit r |}
      end
  end.

(** [start()] after [parser.parse_args()]: [get_columns] is the width the
    terminal reports, [input] the lines [fileinput] yields, line ends
    included. *)
Definition start (get_columns : Z) (args : Args.t) (input : list string)
    : run :=
  if bad_max_quality (Args.max_quality args)
  then {| stdout := []; calls := [];
          exit := Died (BadMaxQuality (Args.max_quality args)) |}
  else
    loop (default_columns get_columns args) 0 St.init input.

End Viewer.

(** ** Vocabulary of the statements *)

(** A text made of the letters [A]..[Z] only. *)
Fixpoint all_upper (s : string) : bool :=
  match s with
  | EmptyString => true
  | String c r => is_upper c && all_upper r
  end.

Fixpoint all_space (s : string) : bool :=
  match s with
  | EmptyString => true
  | String c r => Py.isspace c && all_space r
  end.

(** A text made of quality characters, ['!'] to ['~']. *)
Fixpoint all_quality (s : string) : bool :=
  match s with
  | EmptyString => true
  | String c r =>
      (Py.ord "!" <=? Py.ord c) && (Py.ord c <=? Py.ord "~") && all_quality r
  end.

(** A text of ASCII characters (codes below 128). *)
Fixpoint all_ascii (s : string) : bool :=
  match s with
  | EmptyString => true
  | String c r => (Py.ord c <? 128) && all_ascii r
  end.

(** A text without the escape character. *)
Fixpoint no_escape (s : string) : bool :=
  match s with
  | EmptyString => true
  | String c r => negb (Ascii.eqb c ESC) && no_escape r
  end.

(** The lines [fileinput] yields for a text whose lines all end in a
    newline. *)
Definition fed (lines : list string) : list string :=
  map (fun l => l ++ String LF EmptyString) lines.

(** The bucket as the specification words it: the floor of the quotient,
    clamped to [0, 7]. *)
Definition spec_bucket (c max_quality : ascii) : Z :=
  Z.max 0 (Z.min 7 ((8 * (Py.ord c - Py.ord "!"))
                    / (Py.ord max_quality - Py.ord "!"))).

(** Whether the bucket the code computes with a float division is the
    specification's. *)
Definition bucket_agrees (c m : ascii) : bool :=
  match bucket_of c (String m EmptyString) with
  | Ok b => b =? spec_bucket c m
  | Raise _ => false
  end.

(** The quality characters (codes 33 to 126) and the maxima above ['!']
    (codes 34 to 126). *)
Definition quality_chars : list ascii := map ascii_of_nat (seq 33 94).
Definition maximum_chars : list ascii := map ascii_of_nat (seq 34 93).

(** One quality character as [colorize_quality] paints it under the maximum
    [m]: the colour code of its bucket, the character, the end code. *)
Definition painted (m c : ascii) : string :=
  nth (Z.to_nat (spec_bucket c m)) COLOR_BUCKETS EmptyString
  ++ String c EmptyString ++ COLOR_END.

(** The length [wrap] compares with [columns]: [len(ansistrip(line))] when
    [strip_ansi], [len(line)] otherwise. *)
Definition width_of (strip_ansi : bool) (s : string) : nat :=
  if strip_ansi then String.length (ansistrip s) else String.length s.

(** A list of segments cut at [w]: segments of width exactly [w], then at
    most one more, not empty and narrower than [w]. *)
Definition cut_at (strip_ansi : bool) (w : Z) (segments : list string)
    : Prop :=
  exists full rest,
    segments = (full ++ rest)%list
    /\ Forall (fun s => Z.of_nat (width_of strip_ansi s) = w) full
    /\ (rest = []
        \/ exists l, rest = [l] /\ l <> EmptyString
                     /\ Z.of_nat (width_of strip_ansi l) < w).

(** The command line [args] with [--colorize-quality] set or not. *)
Definition with_colour (on : bool) (args : Args.t) : Args.t := {|
  Args.colorize_quality := on;
  Args.columns := Args.columns args;
  Args.skip_lines := Args.skip_lines args;
  Args.max_quality := Args.max_quality args
|}.

(** The lines [print_fastq] prints for one pair of segments when nothing is
    coloured. *)
Definition pair_lines (args : Args.t) (p : string * string) : list string :=
  fst p :: snd p :: (if Args.skip_lines args then [EmptyString] else []).

(** A message, an outcome and a run as they read when the input they come
    from is preceded by [k] more lines: line numbers are [k] higher. *)
Definition shift_message (k : nat) (m : message) : message :=
  match m with
  | BadValue lineno line => BadValue (k + lineno) line
  | QualityLonger lineno q s => QualityLonger (k + lineno) q s
  | UnableToDetermineLength _ _ _ | BadMaxQuality _ => m
  end.

Definition shift_outcome (k : nat) (o : outcome) : outcome :=
  match o with
  | Died m => Died (shift_message k m)
  | Finished _ | Raised _ => o
  end.

Definition shift_run (k : nat) (r : run) : run := {|
  stdout := stdout r;
  calls := calls r;
  exit := shift_outcome k (exit r)
|}.

(** The record spelled by a header line, sequence lines, a separator line
    and quality lines, each without the whitespace around it. *)
Definition record_from (header : string) (seqs : list string) (sep : string)
    (quals : list string) : Call.t := {|
  Call.at_line := Py.strip header;
  Call.sequence := Py.join (map Py.strip seqs);
  Call.plus_line := Py.strip sep;
  Call.quality := Py.join (map Py.strip quals)
|}.

(** A read that an earlier tool has coloured: runs of letters and colour
    codes [ESC [ params m], the parameters being digits and semicolons. *)
Inductive piece : Type :=
| Letters (s : string)
| Colour (params : string).

Fixpoint sgr_params (p : string) : bool :=
  match p with
  | EmptyString => true
  | String c r =>
      (((Py.ord "0" <=? Py.ord c) && (Py.ord c <=? Py.ord "9"))
       || Ascii.eqb c ";") && sgr_params r
  end.

Definition piece_ok (p : piece) : bool :=
  match p with
  | Letters s => all_upper s
  | Colour params => sgr_params params
  end.

Definition piece_text (p : piece) : string :=
  match p with
  | Letters s => s
  | Colour params => String ESC ("[" ++ params ++ "m")
  end.

Definition piece_letters (p : piece) : string :=
  match p with
  | Letters s => s
  | Colour _ => EmptyString
  end.

(** The characters from [lo] to [hi] inclusive. *)
Definition in_range (lo hi c : ascii) : Prop :=
  Py.ord lo <= Py.ord c <= Py.ord hi.

Definition in_progress (st : St.t) : bool := Py.truthy (St.at_line st).

Definition awaiting_quality (st : St.t) : bool :=
  Py.truthy (St.at_line st) && Py.truthy (St.plus_line st).

Definition awaiting_sequence (st : St.t) : bool :=
  Py.truthy (St.at_line st) && negb (Py.truthy (St.plus_line st)).

Definition quiet (st : St.t) : run :=
  {| stdout := []; calls := []; exit := Finished st |}.

Section Replay.
Context {S : Type} {A : AnsiState S}.

(** The lines the loop appends to the sequence buffer while it reads
    [input]. *)
Fixpoint sequence_lines (args : Args.t) (lineno : nat) (st : St.t)
    (input : list string) : list string :=
  match input with
  | [] => []
  | raw :: rest =>
      let here :=
        if awaiting_sequence st && negb (Py.startswith (Py.strip raw) "+")
        then [Py.strip raw] else [] in
      (here ++ match after (body args lineno st raw) with
               | Next st' => sequence_lines args (Datatypes.S lineno) st' rest
               | Halt _ => []
               end)%list
  end.
End Replay.

(** The command line [--columns N], every other option at its default. *)
Definition plain_args (n : Z) : Args.t := {|
  Args.colorize_quality := false;
  Args.columns := Some n;
  Args.skip_lines := false;
  Args.max_quality := "D"
|}.

(** The command line [--colorize-quality --columns 4 --max-quality '!']. *)
Definition bang_args : Args.t := {|
  Args.colorize_quality := true;
  Args.columns := Some 4;
  Args.skip_lines := false;
  Args.max_quality := "!"
|}.

(** The read [ACGT] written in red: [ESC[31m], the letters, [ESC[0m]. *)
Definition red_read : string := String ESC "[31mACGT" ++ String ESC "[0m".

(** The record the loop would hand to [print_fastq] from the variables in
    [st]. *)
Definition record_of (st : St.t) : Call.t := {|
  Call.at_line := match St.at_line st with Some s => s | None => EmptyString end;
  Call.sequence := Py.join (St.sequence st);
  Call.plus_line := match St.plus_line st with Some s => s | None => EmptyString end;
  Call.quality := Py.join (St.quality st)
|}.

(** The running counters agree with the buffers they measure. *)
Definition counted (st : St.t) : Prop :=
  St.sequence_len st = String.length (ansistrip (Py.join (St.sequence st)))
  /\ St.quality_len st = String.length (Py.join (St.quality st)).

(** The header and the separator the loop holds start with [@] and [+]. *)
Definition marked (st : St.t) : Prop :=
  (forall s, St.at_line st = Some s -> Py.startswith s "@" = true)
  /\ (forall s, St.plus_line st = Some s -> Py.startswith s "+" = true).

(** A state the loop can be in between two lines: nothing read of the next
    record, or a record under way. *)
Definition between_lines (st : St.t) : Prop :=
  st = St.init \/ in_progress st = true.

(** One run followed by another. *)
Definition then_run (r1 r2 : run) : run := {|
  stdout := (stdout r1 ++ stdout r2)%list;
  calls := (calls r1 ++ calls r2)%list;
  exit := exit r2
|}.

Section Transitions.
Context {S : Type} {A : AnsiState S}.

(** The transitions of the record assembler on a stripped [line], one
    constructor per path through the loop body. *)
Inductive feeds (args : Args.t) (lineno : nat) (st : St.t) (line : string)
    : iteration -> Prop :=
| feed_bad_header :
    in_progress st = false -> Py.startswith line "@" = false ->
    feeds args lineno st line (silent (Halt (Died (BadValue lineno line))))
| feed_header :
    in_progress st = false -> Py.startswith line "@" = true ->
    feeds args lineno st line (silent (Next (St.set_at_line line st)))
| feed_separator :
    awaiting_sequence st = true -> Py.startswith line "+" = true ->
    feeds args lineno st line (silent (Next (St.set_plus_line line st)))
| feed_unmeasured m :
    awaiting_sequence st = true -> Py.startswith line "+" = false ->
    colorless_len line = inr m ->
    feeds args lineno st line (silent (Halt (Died m)))
| feed_sequence n :
    awaiting_sequence st = true -> Py.startswith line "+" = false ->
    colorless_len line = inl n ->
    feeds args lineno st line (silent (Next (St.push_sequence line n st)))
| feed_complete out :
    awaiting_quality st = true ->
    (St.quality_len st + String.length line)%nat = St.sequence_len st ->
    print_fastq args (record_of (St.push_quality line st)) = (out, None) ->
    feeds args lineno st line
      {| printed := out;
         handed := Some (record_of (St.push_quality line st));
         after := Next St.init |}
| feed_render_error out e :
    awaiting_quality st = true ->
    (St.quality_len st + String.length line)%nat = St.sequence_len st ->
    print_fastq args (record_of (St.push_quality line st)) = (out, Some e) ->
    feeds args lineno st line
      {| printed := out;
         handed := Some (record_of (St.push_quality line st));
         after := Halt (Raised e) |}
| feed_overrun :
    awaiting_quality st = true ->
    (St.sequence_len st < St.quality_len st + String.length line)%nat ->
    feeds args lineno st line
      (silent (Halt (Died (QualityLonger lineno
                             (St.quality_len st + String.length line)
                             (St.sequence_len st)))))
| feed_more_quality :
    awaiting_quality st = true ->
    (St.quality_len st + String.length line < St.sequence_len st)%nat ->
    feeds args lineno st line (silent (Next (St.push_quality line st))).
End Transitions.

(** * Properties *)

(** ** Strings *)

Lemma append_nil_r (s : string) : s ++ "" = s.
Proof. induction s as [|c s IH]; simpl; [reflexivity | now rewrite IH]. Qed.

Lemma append_assoc (a b c : string) : (a ++ b) ++ c = a ++ b ++ c.
Proof. induction a as [|x a IH]; simpl; [reflexivity | now rewrite IH]. Qed.

Lemma length_append (a b : string) :
  String.length (a ++ b) = (String.length a + String.length b)%nat.
Proof. induction a as [|x a IH]; simpl; [reflexivity | now rewrite IH]. Qed.

Lemma join_cons (x : string) (xs : list string) :
  Py.join (x :: xs) = x ++ Py.join xs.
Proof.
  destruct xs as [|y ys]; [apply eq_sym, append_nil_r | reflexivity].
Qed.

Lemma join_app (xs ys : list string) :
  Py.join (xs ++ ys) = Py.join xs ++ Py.join ys.
Proof.
  induction xs as [|x xs IH]; [reflexivity |].
  rewrite <- app_comm_cons, !join_cons, IH. now rewrite append_assoc.
Qed.

Lemma join_snoc (xs : list string) (x : string) :
  Py.join (xs ++ [x]) = Py.join xs ++ x.
Proof. now rewrite join_app. Qed.

(** ** [wrap] *)

(** What the scan keeps: closed lines, then the open line, then the text
    still to read, always spell the same string. *)
Lemma wrap_scan_join (strip_ansi : bool) (columns : option Z) (text : string) :
  forall line lines,
    Py.join (snd (wrap_scan strip_ansi columns text line lines))
      ++ fst (wrap_scan strip_ansi columns text line lines)
    = Py.join lines ++ line ++ text.
Proof.
  induction text as [|c rest IH]; intros line lines; simpl.
  - now rewrite append_nil_r.
  - destruct (at_width _ columns); rewrite IH.
    + rewrite join_snoc, !append_assoc. reflexivity.
    + rewrite append_assoc. reflexivity.
Qed.

Lemma wrap_lines_join (strip_ansi : bool) (columns : option Z) (text : string) :
  Py.join (wrap_lines text strip_ansi columns) = text.
Proof.
  unfold wrap_lines.
  pose proof (wrap_scan_join strip_ansi columns text "" []) as H.
  destruct (wrap_scan strip_ansi columns text "" []) as [line lines].
  simpl in H. destruct line as [|c line]; simpl.
  - now rewrite append_nil_r in H.
  - now rewrite join_snoc.
Qed.

(** C5. Wrapping in raw count mode at a positive width loses nothing: the
    segments, concatenated in order, spell the text that was wrapped. *)
Theorem wrap_raw_roundtrip {S : Type} {A : AnsiState S}
    (text : string) (w : Z) :
  0 < w -> Py.join (wrap text false (Some w)) = text.
Proof. intros _. unfold wrap. apply wrap_lines_join. Qed.

Lemma wrap_raw_roundtrip_witness :
  0 < 3 /\ Py.join (wrap (A := SgrState) "ACGTACGT" false (Some 3)) = "ACGTACGT".
Proof. split; [lia | apply (wrap_raw_roundtrip "ACGTACGT" 3); lia]. Defined.

(** ** [colorize_quality] *)

Lemma ord_nat (c : ascii) : Py.ord c = Z.of_nat (nat_of_ascii c).
Proof. unfold Py.ord, nat_of_ascii. now rewrite N_nat_Z. Qed.

(** A character whose code lies in a range is one of the characters listed
    by [seq] over that range. *)
Lemma in_range_listed (lo len : nat) (c : ascii) :
  Z.of_nat lo <= Py.ord c < Z.of_nat (lo + len) ->
  In c (map ascii_of_nat (seq lo len)).
Proof.
  intros H. rewrite ord_nat in H.
  rewrite <- (ascii_nat_embedding c). apply in_map, in_seq. lia.
Qed.

(** The float quotient, truncated, is the integer quotient: checked on all
    94 * 93 pairs. *)
Lemma buckets_agree :
  forallb (fun c => forallb (bucket_agrees c) maximum_chars) quality_chars
  = true.
Proof. vm_compute. reflexivity. Qed.

Lemma forallb2_in {X Y : Type} (f : X -> Y -> bool) (xs : list X)
    (ys : list Y) :
  forallb (fun x => forallb (f x) ys) xs = true ->
  forall x y, In x xs -> In y ys -> f x y = true.
Proof.
  intros H x y Hx Hy. rewrite forallb_forall in H.
  specialize (H x Hx). rewrite forallb_forall in H. now apply H.
Qed.

Lemma bucket_of_spec (c m : ascii) :
  in_range "!" "~" c -> Py.ord "!" < Py.ord m <= Py.ord "~" ->
  bucket_of c (String m EmptyString) = Ok (spec_bucket c m).
Proof.
  intros Hc Hm.
  unfold in_range in Hc.
  change (Py.ord "!") with 33 in Hc, Hm.
  change (Py.ord "~") with 126 in Hc, Hm.
  assert (In c quality_chars) as Ic.
  { apply in_range_listed. change (Z.of_nat 33) with 33.
    change (Z.of_nat (33 + 94)) with 127. lia. }
  assert (In m maximum_chars) as Im.
  { apply in_range_listed. change (Z.of_nat 34) with 34.
    change (Z.of_nat (34 + 93)) with 127. lia. }
  pose proof (forallb2_in bucket_agrees _ _ buckets_agree c m Ic Im) as H.
  unfold bucket_agrees in H.
  destruct (bucket_of c (String m EmptyString)) as [b|e]; [|discriminate].
  apply Z.eqb_eq in H. now subst b.
Qed.

Lemma spec_bucket_bounds (c m : ascii) : 0 <= spec_bucket c m <= 7.
Proof. unfold spec_bucket. lia. Qed.

Lemma spec_bucket_mono (c c' m : ascii) :
  Py.ord "!" < Py.ord m -> Py.ord c <= Py.ord c' ->
  spec_bucket c m <= spec_bucket c' m.
Proof.
  intros Hm Hc. unfold spec_bucket.
  assert (8 * (Py.ord c - Py.ord "!") / (Py.ord m - Py.ord "!")
          <= 8 * (Py.ord c' - Py.ord "!") / (Py.ord m - Py.ord "!"))
    by (apply Z.div_le_mono; lia).
  lia.
Qed.

Lemma color_bucket_exists (b : Z) :
  0 <= b <= 7 ->
  exists start, nth_error COLOR_BUCKETS (Z.to_nat b) = Some start
                /\ Py.index COLOR_BUCKETS b = Some start.
Proof.
  intros H.
  assert (b = 0 \/ b = 1 \/ b = 2 \/ b = 3 \/ b = 4 \/ b = 5 \/ b = 6 \/ b = 7)
    as Hb by lia.
  repeat (destruct Hb as [-> | Hb]; [eexists; split; reflexivity |]).
  subst b. eexists; split; reflexivity.
Qed.

(** C6. For a quality character [c] in ['!', '~'] and a maximum above ['!']
    and at most ['~'], [colorize_quality] computes the bucket
    floor(8 * (ord c - ord '!') / (ord max - ord '!')) clamped to [0, 7]; the
    bucket lies in [0, 7], does not decrease when [c] increases, and the
    string returned for [c] is [c] between that bucket's colour code and the
    shared end code. *)
Theorem colorize_bucket (c m : ascii) :
  in_range "!" "~" c -> Py.ord "!" < Py.ord m <= Py.ord "~" ->
  bucket_of c (String m EmptyString) = Ok (spec_bucket c m)
  /\ 0 <= spec_bucket c m <= 7
  /\ (forall c', in_range c "~" c' -> spec_bucket c m <= spec_bucket c' m)
  /\ exists start,
       nth_error COLOR_BUCKETS (Z.to_nat (spec_bucket c m)) = Some start
       /\ colorize_quality (String c EmptyString) (String m EmptyString)
          = Ok (start ++ String c EmptyString ++ COLOR_END).
Proof.
  intros Hc Hm. pose proof (bucket_of_spec c m Hc Hm) as Hb.
  split; [exact Hb |]. split; [apply spec_bucket_bounds |].
  split; [intros c' Hc'; apply spec_bucket_mono; [lia | apply Hc'] |].
  destruct (color_bucket_exists _ (spec_bucket_bounds c m))
    as [start [Hnth Hidx]].
  exists start. split; [exact Hnth |].
  unfold colorize_quality. cbn [colorize_chars].
  destruct Hc as [Hlo Hhi].
  apply Z.ltb_ge in Hlo. apply Z.ltb_ge in Hhi. rewrite Hlo, Hhi.
  cbn [orb]. rewrite Hb. cbn [bind]. rewrite Hidx. cbn [bind].
  now rewrite append_nil_r.
Qed.

Lemma colorize_bucket_witness :
  spec_bucket "5" "D" = 4
  /\ colorize_quality "5" "D" = Ok (String ESC "[37m" ++ "5" ++ COLOR_END).
Proof.
  destruct (colorize_bucket "5" "D") as [_ [_ [_ [start [Hs Hc]]]]].
  - unfold in_range. vm_compute. split; discriminate.
  - vm_compute. split; [reflexivity | discriminate].
  - split; [reflexivity |].
    vm_compute in Hs. injection Hs as <-. exact Hc.
Defined.

(** ** The input loop *)

Lemma truthy_inv (o : option string) :
  Py.truthy o = true -> exists c r, o = Some (String c r).
Proof.
  destruct o as [[|c r]|]; simpl; try discriminate. intros _. now exists c, r.
Qed.

Lemma startswith_nonempty (line p : string) :
  Py.nonempty p = true -> Py.startswith line p = true ->
  Py.nonempty line = true.
Proof. destruct p, line; simpl; congruence. Qed.

Section Assembler.
Context {S : Type} {A : AnsiState S}.

(** The loop body takes exactly the transitions of [feeds], on the line
    with its surrounding whitespace stripped. *)
Lemma body_feeds (args : Args.t) (lineno : nat) (st : St.t) (raw : string) :
  feeds args lineno st (Py.strip raw) (body args lineno st raw).
Proof.
  assert (forall b, in_progress st = b -> Py.truthy (St.at_line st) = b)
    as Hin by (intros b <-; reflexivity).
  unfold body.
  destruct (St.at_line st) as [[|c r]|] eqn:Eat;
    try (destruct (Py.startswith (Py.strip raw) "@") eqn:Hp; cbn [negb];
         [ apply feed_header | apply feed_bad_header ];
         solve [ exact Hp | unfold in_progress; now rewrite Eat ]).
  destruct (St.plus_line st) as [[|d q]|] eqn:Eplus;
    try (assert (awaiting_sequence st = true) as Hs
           by (unfold awaiting_sequence; now rewrite Eat, Eplus);
         destruct (Py.startswith (Py.strip raw) "+") eqn:Hp;
         [ now apply feed_separator
         | destruct (colorless_len (Py.strip raw)) eqn:Hc;
           [ now apply feed_sequence | now apply feed_unmeasured ] ]).
  assert (awaiting_quality st = true) as Hq
    by (unfold awaiting_quality; now rewrite Eat, Eplus).
  assert (record_of (St.push_quality (Py.strip raw) st)
          = {| Call.at_line := String c r;
               Call.sequence := Py.join (St.sequence st);
               Call.plus_line := String d q;
               Call.quality :=
                 Py.join (St.quality st ++ [Py.strip raw]) |}) as Hrec
    by (unfold record_of; simpl; now rewrite Eat, Eplus).
  cbn [St.push_quality St.quality_len St.sequence_len St.sequence
       St.quality].
  destruct (Nat.eqb_spec
              (St.quality_len st + String.length (Py.strip raw))
              (St.sequence_len st)) as [Heq | Hne].
  - rewrite <- Hrec.
    destruct (print_fastq args _) as [out [e|]] eqn:Hp.
    + now apply feed_render_error.
    + now apply feed_complete.
  - destruct (Nat.ltb_spec (St.sequence_len st)
                (St.quality_len st + String.length (Py.strip raw))).
    + now apply feed_overrun.
    + apply feed_more_quality; [exact Hq | lia].
Qed.

Lemma body_never_finishes (args : Args.t) (lineno : nat) (st st' : St.t)
    (raw : string) :
  after (body args lineno st raw) <> Halt (Finished st').
Proof. destruct (body_feeds args lineno st raw); discriminate. Qed.

Lemma then_run_quiet (st : St.t) (r : run) : then_run (quiet st) r = r.
Proof. now destruct r. Qed.

(** Reading [xs ++ ys] is reading [xs] and, unless that run ended early,
    going on with [ys]. *)
Lemma loop_app (args : Args.t) (xs ys : list string) :
  forall lineno st,
    loop args lineno st (xs ++ ys)%list
    = match exit (loop args lineno st xs) with
      | Finished st' =>
          then_run (loop args lineno st xs)
                   (loop args (lineno + List.length xs) st' ys)
      | _ => loop args lineno st xs
      end.
Proof.
  induction xs as [|x xs IH]; intros lineno st.
  - simpl. rewrite Nat.add_0_r. symmetry. apply then_run_quiet.
  - rewrite <- app_comm_cons.
    cbn [loop].
    destruct (after (body args lineno st x)) as [st1 | o] eqn:Hnf.
    + rewrite IH. cbn [exit List.length].
      destruct (exit (loop args (Datatypes.S lineno) st1 xs)) eqn:E;
        cbn [stdout calls exit]; try (now rewrite E).
      unfold then_run. cbn [stdout calls exit].
      rewrite <- !app_assoc, Nat.add_succ_comm. reflexivity.
    + cbn [exit]. destruct o; try reflexivity.
      now apply body_never_finishes in Hnf.
Qed.

Lemma between_lines_step (args : Args.t) (lineno : nat) (st st' : St.t)
    (raw : string) :
  after (body args lineno st raw) = Next st' -> between_lines st'.
Proof.
  unfold between_lines, in_progress.
  destruct (body_feeds args lineno st raw) as
    [ | _ Hp | Hs _ | | n Hs _ _ | | | | Hq _ ];
    cbn [after silent]; intros Hn; inversion Hn; subst; clear Hn; cbn.
  - right. now apply (startswith_nonempty _ "@").
  - right. unfold awaiting_sequence in Hs. now apply andb_prop in Hs.
  - right. unfold awaiting_sequence in Hs. now apply andb_prop in Hs.
  - now left.
  - right. unfold awaiting_quality in Hq. now apply andb_prop in Hq.
Qed.

Lemma between_lines_loop (args : Args.t) (input : list string) :
  forall lineno st st',
    between_lines st ->
    exit (loop args lineno st input) = Finished st' -> between_lines st'.
Proof.
  induction input as [|raw rest IH]; intros lineno st st' Hst; cbn [loop].
  - cbn. now intros [= <-].
  - destruct (after (body args lineno st raw)) as [st1 | o] eqn:Hb;
      cbn [exit].
    + apply IH. now apply between_lines_step in Hb.
    + intros ->. now apply body_never_finishes in Hb.
Qed.

End Assembler.

Section Overrun.
Context {S : Type} {A : AnsiState S}.

Lemma loop_one_silent (args : Args.t) (lineno : nat) (st st1 : St.t)
    (raw : string) :
  body args lineno st raw = silent (Next st1) ->
  loop args lineno st [raw] = quiet st1.
Proof. intros H. cbn [loop]. now rewrite H. Qed.

Lemma run_eta (r : run) :
  r = {| stdout := stdout r; calls := calls r; exit := exit r |}.
Proof. now destruct r. Qed.

(** While a record is under way nothing of it has been printed: the input
    read so far splits into the lines of the earlier records, which alone
    produced the output, and the lines of the current one, read in
    silence from a fresh state. *)
Lemma in_progress_silent (args : Args.t) (pre : list string) :
  forall out cs st,
    loop args 0 St.init pre
    = {| stdout := out; calls := cs; exit := Finished st |} ->
    in_progress st = true ->
    exists pre1 pre2,
      pre = (pre1 ++ pre2)%list /\ pre2 <> []
      /\ loop args 0 St.init pre1
         = {| stdout := out; calls := cs; exit := Finished St.init |}
      /\ loop args (List.length pre1) St.init pre2 = quiet st.
Proof.
  induction pre as [|x p IH] using rev_ind; intros out cs st H Hst.
  - cbn in H. injection H as _ _ <-. discriminate Hst.
  - rewrite loop_app in H.
    destruct (loop args 0 St.init p) as [o1 c1 e1] eqn:Hp. cbn [exit] in H.
    destruct e1 as [st' | m | e]; try discriminate H.
    assert (between_lines st') as Hbl.
    { apply (between_lines_loop args p 0 St.init); [now left |].
      now rewrite Hp. }
    pose proof (body_feeds args (0 + List.length p) st' x) as F.
    remember (body args (0 + List.length p) st' x) as it eqn:Hit.
    assert (forall st1, it = silent (Next st1) ->
                        out = o1 /\ cs = c1 /\ st = st1) as Hquiet.
    { intros st1 ->. symmetry in Hit.
      rewrite (loop_one_silent _ _ _ _ _ Hit) in H.
      unfold then_run, quiet in H. cbn [stdout calls exit] in H.
      rewrite !app_nil_r in H. now injection H as <- <- <-. }
    assert (in_progress st' = true ->
            forall st1, it = silent (Next st1) ->
              exists pre1 pre2,
                (p ++ [x])%list = (pre1 ++ pre2)%list /\ pre2 <> []
                /\ loop args 0 St.init pre1
                   = {| stdout := out; calls := cs;
                        exit := Finished St.init |}
                /\ loop args (List.length pre1) St.init pre2 = quiet st)
      as Hgo.
    { intros Hin st1 E. destruct (Hquiet st1 E) as [-> [-> ->]].
      destruct (IH o1 c1 st' eq_refl Hin) as [p1 [p2 [-> [Hne [H1 H2]]]]].
      exists p1, (p2 ++ [x])%list. split; [now rewrite app_assoc |].
      split; [now destruct p2 |]. split; [exact H1 |].
      rewrite loop_app, H2. cbn [exit quiet].
      rewrite then_run_quiet. apply loop_one_silent.
      rewrite <- E, Hit. f_equal. rewrite length_app. reflexivity. }
    assert (after it <> Next st -> False) as Hexit.
    { intros Hn. cbn [loop] in H. rewrite <- Hit in H.
      destruct (after it) eqn:Ha;
        unfold then_run in H; cbn [stdout calls exit] in H.
      - injection H as _ _ <-. now apply Hn.
      - injection H as _ _ ->. rewrite Hit in Ha.
        now apply body_never_finishes in Ha. }
    destruct F as
      [ | Hs _ | Hs _ | | n Hs _ _ | out' _ _ _ | | | Hq _ ];
      try (exfalso; apply Hexit; discriminate).
    + destruct Hbl as [-> | Hin]; [| congruence].
      destruct (Hquiet _ eq_refl) as [-> [-> ->]].
      exists p, [x]. split; [reflexivity |]. split; [discriminate |].
      split; [exact Hp |]. apply loop_one_silent. now symmetry.
    + apply (Hgo (proj1 (andb_prop _ _ Hs)) _ eq_refl).
    + apply (Hgo (proj1 (andb_prop _ _ Hs)) _ eq_refl).
    + exfalso. apply Hexit. cbn. intros [= <-]. discriminate Hst.
    + apply (Hgo (proj1 (andb_prop _ _ Hq)) _ eq_refl).
Qed.

(** C2. In the quality-accumulating state, a line that takes the running
    quality length past the running sequence length makes the run die with
    a message carrying both lengths, with nothing printed or handed over; a
    line that leaves it short is appended and the state stays
    quality-accumulating.  When the overrun happens in a run, all the
    output so far was printed before the header of the overrunning record
    was read. *)
Theorem quality_overrun_is_fatal (args : Args.t) :
  (forall lineno st raw,
      awaiting_quality st = true ->
      let q := (St.quality_len st + String.length (Py.strip raw))%nat in
      ((St.sequence_len st < q)%nat ->
       body args lineno st raw
       = silent (Halt (Died (QualityLonger lineno q (St.sequence_len st)))))
      /\ ((q < St.sequence_len st)%nat ->
          body args lineno st raw
          = silent (Next (St.push_quality (Py.strip raw) st))
          /\ awaiting_quality (St.push_quality (Py.strip raw) st) = true))
  /\ (forall pre raw rest out cs st,
        loop args 0 St.init pre
        = {| stdout := out; calls := cs; exit := Finished st |} ->
        awaiting_quality st = true ->
        let q := (St.quality_len st + String.length (Py.strip raw))%nat in
        (St.sequence_len st < q)%nat ->
        loop args 0 St.init (pre ++ raw :: rest)%list
        = {| stdout := out; calls := cs;
             exit := Died (QualityLonger (List.length pre) q
                                         (St.sequence_len st)) |}
        /\ exists pre1 pre2,
             pre = (pre1 ++ pre2)%list /\ pre2 <> []
             /\ loop args 0 St.init pre1
                = {| stdout := out; calls := cs;
                     exit := Finished St.init |}
             /\ loop args (List.length pre1) St.init pre2 = quiet st).
Proof.
  assert (forall lineno st raw,
             awaiting_quality st = true ->
             (St.sequence_len st
              < St.quality_len st + String.length (Py.strip raw))%nat ->
             body args lineno st raw
             = silent (Halt (Died (QualityLonger lineno
                 (St.quality_len st + String.length (Py.strip raw))
                 (St.sequence_len st))))) as Hover.
  { intros lineno st raw Hq Hlt.
    destruct (body_feeds args lineno st raw);
      unfold awaiting_quality, awaiting_sequence, in_progress in *;
      try reflexivity;
      try (destruct (Py.truthy (St.at_line st)),
             (Py.truthy (St.plus_line st)); discriminate);
      lia. }
  split.
  - intros lineno st raw Hq q. split; [now apply Hover |].
    intros Hlt. split; [| exact Hq]. subst q.
    destruct (body_feeds args lineno st raw);
      unfold awaiting_quality, awaiting_sequence, in_progress in *;
      try reflexivity;
      try (destruct (Py.truthy (St.at_line st)),
             (Py.truthy (St.plus_line st)); discriminate);
      lia.
  - intros pre raw rest out cs st Hp Hq q Hlt. split.
    + rewrite loop_app, Hp. cbn [exit loop].
      rewrite (Hover _ _ _ Hq Hlt). unfold then_run. cbn.
      now rewrite !app_nil_r.
    + apply (in_progress_silent args pre out cs st Hp).
      unfold awaiting_quality in Hq. now apply andb_prop in Hq.
Qed.
End Overrun.

(** ** Length accounting *)

Lemma ansistrip_append (a b : string) :
  ansistrip (a ++ b) = ansistrip a ++ ansistrip b.
Proof.
  induction a as [|c a IH]; simpl; [reflexivity |].
  destruct (is_upper c); simpl; now rewrite IH.
Qed.

Lemma ansistrip_upper (s : string) : all_upper s = true -> ansistrip s = s.
Proof.
  induction s as [|c s IH]; simpl; [reflexivity |].
  intros H. apply andb_prop in H as [Hc Hs]. rewrite Hc. now rewrite IH.
Qed.

Lemma all_upper_append (a b : string) :
  all_upper (a ++ b) = all_upper a && all_upper b.
Proof.
  induction a as [|c a IH]; simpl; [reflexivity |].
  now rewrite IH, andb_assoc.
Qed.

Lemma colorless_len_inl (line : string) (n : nat) :
  colorless_len line = inl n ->
  n = ansilen line /\ n = String.length (ansistrip line).
Proof.
  unfold colorless_len.
  destruct (Nat.eqb_spec (ansilen line) (String.length (ansistrip line)));
    cbn [negb]; [| discriminate].
  intros [= <-]. now split.
Qed.

Lemma counted_init : counted St.init.
Proof. now split. Qed.

Lemma counted_push_sequence (line : string) (n : nat) (st : St.t) :
  counted st -> colorless_len line = inl n ->
  counted (St.push_sequence line n st).
Proof.
  intros [Hs Hq] Hn. apply colorless_len_inl in Hn as [_ Hn].
  split; cbn; [| exact Hq].
  rewrite join_snoc, ansistrip_append, length_append. congruence.
Qed.

Lemma counted_push_quality (line : string) (st : St.t) :
  counted st -> counted (St.push_quality line st).
Proof.
  intros [Hs Hq]. split; cbn; [exact Hs |].
  rewrite join_snoc, length_append. congruence.
Qed.

(** A record whose counters agree and meet has as many quality characters
    as its sequence has uppercase letters. *)
Lemma counted_record (line : string) (st : St.t) :
  counted st ->
  (St.quality_len st + String.length line)%nat = St.sequence_len st ->
  String.length (ansistrip (Call.sequence (record_of (St.push_quality line st))))
  = String.length (Call.quality (record_of (St.push_quality line st))).
Proof.
  intros [Hs Hq] Heq. unfold record_of.
  cbn [Call.sequence Call.quality St.push_quality St.sequence St.quality].
  rewrite join_snoc, length_append. congruence.
Qed.

Section Accounting.
Context {S : Type} {A : AnsiState S}.

(** Every record handed to [print_fastq] has as many quality characters
    as its sequence has uppercase letters. *)
Lemma calls_counted (args : Args.t) (c : Call.t) (input : list string) :
  forall lineno st,
    counted st -> In c (calls (loop args lineno st input)) ->
    String.length (ansistrip (Call.sequence c))
    = String.length (Call.quality c).
Proof.
  induction input as [|raw rest IH]; intros lineno st Hst; cbn [loop];
    [intros [] |].
  destruct (body_feeds args lineno st raw);
    cbn [silent printed handed after calls app];
    try (intros Hf; exact (False_ind _ Hf)); try (apply IH).
  - exact Hst.
  - exact Hst.
  - now apply counted_push_sequence.
  - intros [<- | Hin]; [now apply counted_record |].
    apply (IH _ _ counted_init Hin).
  - intros [<- | []]. now apply counted_record.
  - now apply counted_push_quality.
Qed.

(** When every line appended to the sequence buffer is made of uppercase
    letters, so is the sequence of every record handed over. *)
Lemma calls_upper (args : Args.t) (c : Call.t) (input : list string) :
  forall lineno st,
    all_upper (Py.join (St.sequence st)) = true ->
    (forall l, In l (sequence_lines args lineno st input) ->
               all_upper l = true) ->
    In c (calls (loop args lineno st input)) ->
    all_upper (Call.sequence c) = true.
Proof.
  induction input as [|raw rest IH]; intros lineno st Hst;
    cbn [loop sequence_lines]; [intros _ [] |].
  destruct (body_feeds args lineno st raw) as
    [ | | Hs Hp | | n Hs Hp _ | | | | ];
    cbn [silent printed handed after calls app];
    intros Hl; try (intros Hf; exact (False_ind _ Hf));
    try (apply IH; [exact Hst | intros l Hin; apply Hl, in_or_app; now right]).
  - apply IH.
    + cbn. rewrite join_snoc, all_upper_append, Hst. apply Hl.
      rewrite Hs, Hp. now left.
    + intros l Hin. apply Hl, in_or_app. now right.
  - intros [<- | Hin]; [exact Hst |].
    apply (IH (Datatypes.S lineno) St.init eq_refl); [| exact Hin].
    intros l Hl'. apply Hl, in_or_app. now right.
  - intros [<- | []]. exact Hst.
Qed.

(** C1. The loop hands a record to [print_fastq] only on a quality line that
    brings the running quality length to the running sequence length; and
    when the lines it appends to the sequence buffer contain only uppercase
    letters, every record handed over has a sequence and a quality of the
    same length. *)
Theorem emitted_lengths_agree (args : Args.t) :
  (forall lineno st raw c,
      handed (body args lineno st raw) = Some c ->
      awaiting_quality st = true
      /\ (St.quality_len st + String.length (Py.strip raw))%nat
         = St.sequence_len st
      /\ c = record_of (St.push_quality (Py.strip raw) st))
  /\ (forall get_columns input c,
        (forall l,
            In l (sequence_lines (default_columns get_columns args)
                                 0 St.init input) ->
            all_upper l = true) ->
        In c (calls (start get_columns args input)) ->
        String.length (Call.sequence c) = String.length (Call.quality c)).
Proof.
  split.
  - intros lineno st raw c.
    destruct (body_feeds args lineno st raw);
      cbn [handed silent]; try discriminate; now intros [= <-].
  - intros get_columns input c Hup. unfold start.
    destruct (bad_max_quality _); [intros [] |]. intros Hin.
    rewrite <- (calls_counted _ _ _ _ _ counted_init Hin).
    now rewrite (ansistrip_upper _
                   (calls_upper _ _ _ 0%nat St.init eq_refl Hup Hin)).
Qed.

End Accounting.

(** ** Text without escape sequences *)

Lemma upper_no_escape (s : string) : all_upper s = true -> no_escape s = true.
Proof.
  induction s as [|c s IH]; simpl; [reflexivity |].
  intros H. apply andb_prop in H as [Hc Hs]. rewrite (IH Hs), andb_true_r.
  destruct (Ascii.eqb_spec c ESC) as [-> |]; [discriminate Hc | reflexivity].
Qed.

Lemma no_escape_append (a b : string) :
  no_escape (a ++ b) = no_escape a && no_escape b.
Proof.
  induction a as [|c a IH]; simpl; [reflexivity |].
  now rewrite IH, andb_assoc.
Qed.

Lemma ansire_group_plain (c : ascii) (r : string) :
  Ascii.eqb c ESC = false -> ansire_group (String c r) = None.
Proof. intros H. unfold ansire_group. destruct r; now rewrite ?H. Qed.

Lemma sub_ansire_plain (s : string) :
  no_escape s = true -> sub_ansire 0 s = s.
Proof.
  induction s as [|c s IH]; [reflexivity |].
  cbn [no_escape sub_ansire]. intros H. apply andb_prop in H as [Hc Hs].
  apply negb_true_iff in Hc.
  rewrite (ansire_group_plain c s Hc). now rewrite IH.
Qed.

Lemma findall_ansire_plain (s : string) :
  no_escape s = true -> findall_ansire 0 s = [].
Proof.
  induction s as [|c s IH]; [reflexivity |].
  cbn [no_escape findall_ansire]. intros H. apply andb_prop in H as [Hc Hs].
  apply negb_true_iff in Hc.
  rewrite (ansire_group_plain c s Hc). now apply IH.
Qed.

Lemma ansilen_plain (s : string) :
  no_escape s = true -> ansilen s = String.length s.
Proof. intros H. unfold ansilen, strip_color. now rewrite sub_ansire_plain. Qed.

(** [predicate(''.join(parts))] for a predicate that holds of a text when it
    holds of each of its characters. *)
Lemma join_forallb (p : string -> bool) (parts : list string) :
  p EmptyString = true -> (forall a b, p (a ++ b) = p a && p b) ->
  p (Py.join parts) = forallb p parts.
Proof.
  intros Hnil Happ. induction parts as [|x xs IH]; [exact Hnil |].
  rewrite join_cons, Happ, IH. reflexivity.
Qed.

Section TerminateFacts.
Context {S : Type} {A : AnsiState S}.

(** [ansi_terminate_lines] returns one line per line it is given. *)
Lemma terminate_loop_length (lines : list string) :
  forall state end_code out,
    terminate_loop state end_code lines = Ok out ->
    List.length out = List.length lines.
Proof.
  induction lines as [|l ls IH]; intros state end_code out; cbn [terminate_loop].
  - now intros [= <-].
  - destruct (consume_all state _) as [state' | e]; cbn [bind];
      [| discriminate].
    destruct (terminate_loop state' _ ls) as [out' | e] eqn:E; cbn [bind];
      [| discriminate].
    intros [= <-]. cbn [List.length]. f_equal. exact (IH _ _ _ E).
Qed.

(** With no colour in effect and no escape sequence in the lines, there
    is nothing to terminate, and no code to consume. *)
Lemma terminate_loop_plain (lines : list string) :
  forall state end_code,
    code state = EmptyString ->
    Py.truthy end_code = false ->
    forallb no_escape lines = true ->
    terminate_loop state end_code lines = Ok lines.
Proof.
  induction lines as [|l ls IH]; intros state end_code Hc He Hl;
    [reflexivity |].
  cbn [forallb] in Hl. apply andb_prop in Hl as [Hl Hls].
  cbn [terminate_loop]. rewrite (findall_ansire_plain l Hl).
  cbn [consume_all bind]. rewrite Hc. cbn [Py.nonempty].
  rewrite (IH state (Some EmptyString) Hc eq_refl Hls). cbn [bind].
  destruct end_code as [[|c r]|]; try reflexivity. discriminate He.
Qed.

Lemma ansi_terminate_lines_plain (lines : list string) :
  code fresh = EmptyString -> forallb no_escape lines = true ->
  ansi_terminate_lines lines = Ok lines.
Proof. intros Hc Hl. now apply terminate_loop_plain. Qed.

(** Lines without escape sequences are never refused, whatever the colour
    state reports. *)
Lemma terminate_loop_accepts (lines : list string) :
  forall state end_code,
    forallb no_escape lines = true ->
    exists out, terminate_loop state end_code lines = Ok out.
Proof.
  induction lines as [|l ls IH]; intros state end_code Hl;
    [now exists [] |].
  cbn [forallb] in Hl. apply andb_prop in Hl as [Hl Hls].
  cbn [terminate_loop]. rewrite (findall_ansire_plain l Hl).
  cbn [consume_all bind].
  destruct (IH state (Some (code state)) Hls) as [out ->]. cbn [bind].
  eexists. reflexivity.
Qed.

End TerminateFacts.

(** ** Wrapping uppercase text *)

Lemma wrap_scan_upper (columns : option Z) (text : string) :
  forall line lines,
    all_upper line = true -> all_upper text = true ->
    wrap_scan true columns text line lines
    = wrap_scan false columns text line lines.
Proof.
  induction text as [|c rest IH]; intros line lines Hl Ht; [reflexivity |].
  cbn [all_upper] in Ht. apply andb_prop in Ht as [Hc Ht].
  assert (all_upper (line ++ String c EmptyString) = true) as Hl'
    by (rewrite all_upper_append, Hl; cbn; now rewrite Hc).
  cbn [wrap_scan]. rewrite (ansistrip_upper _ Hl').
  destruct (at_width _ columns); now apply IH.
Qed.

Lemma wrap_lines_upper (columns : option Z) (text : string) :
  all_upper text = true ->
  wrap_lines text true columns = wrap_lines text false columns.
Proof. intros H. unfold wrap_lines. now rewrite wrap_scan_upper. Qed.

(** The segments of a text inherit what holds of all its characters. *)
Lemma wrap_lines_forallb (p : string -> bool) (strip_ansi : bool)
    (columns : option Z) (text : string) :
  p EmptyString = true -> (forall a b, p (a ++ b) = p a && p b) ->
  p text = true -> forallb p (wrap_lines text strip_ansi columns) = true.
Proof.
  intros Hnil Happ Ht.
  rewrite <- (join_forallb p _ Hnil Happ). now rewrite wrap_lines_join.
Qed.

(** For an uppercase text, counting content characters and terminating
    colour spans changes nothing: both count modes give the same segments. *)
Lemma wrap_upper {S : Type} {A : AnsiState S} (columns : option Z)
    (text : string) :
  code fresh = EmptyString -> all_upper text = true ->
  wrap text true columns = Ok (wrap_lines text false columns).
Proof.
  intros Hc Ht. unfold wrap. rewrite (wrap_lines_upper _ _ Ht).
  apply (ansi_terminate_lines_plain _ Hc).
  apply (wrap_lines_forallb no_escape); [reflexivity | apply no_escape_append |].
  now apply upper_no_escape.
Qed.

(** ** The loop body, branch by branch *)

Section Steps.
Context {S : Type} {A : AnsiState S}.

Ltac by_feeds args lineno st raw :=
  destruct (body_feeds args lineno st raw);
  unfold awaiting_quality, awaiting_sequence, in_progress in *;
  try reflexivity;
  try (destruct (Py.truthy (St.at_line st)),
         (Py.truthy (St.plus_line st)); discriminate);
  try congruence; try lia.

Lemma body_header (args : Args.t) (lineno : nat) (st : St.t) (raw : string) :
  in_progress st = false -> Py.startswith (Py.strip raw) "@" = true ->
  body args lineno st raw
  = silent (Next (St.set_at_line (Py.strip raw) st)).
Proof. intros Hs Hp. by_feeds args lineno st raw. Qed.

Lemma body_bad_header (args : Args.t) (lineno : nat) (st : St.t)
    (raw : string) :
  in_progress st = false -> Py.startswith (Py.strip raw) "@" = false ->
  body args lineno st raw
  = silent (Halt (Died (BadValue lineno (Py.strip raw)))).
Proof. intros Hs Hp. by_feeds args lineno st raw. Qed.

Lemma body_separator (args : Args.t) (lineno : nat) (st : St.t)
    (raw : string) :
  awaiting_sequence st = true -> Py.startswith (Py.strip raw) "+" = true ->
  body args lineno st raw
  = silent (Next (St.set_plus_line (Py.strip raw) st)).
Proof. intros Hs Hp. by_feeds args lineno st raw. Qed.

Lemma body_sequence (args : Args.t) (lineno : nat) (st : St.t)
    (raw : string) (n : nat) :
  awaiting_sequence st = true -> Py.startswith (Py.strip raw) "+" = false ->
  colorless_len (Py.strip raw) = inl n ->
  body args lineno st raw
  = silent (Next (St.push_sequence (Py.strip raw) n st)).
Proof. intros Hs Hp Hc. by_feeds args lineno st raw. Qed.

Lemma body_complete (args : Args.t) (lineno : nat) (st : St.t)
    (raw : string) :
  awaiting_quality st = true ->
  (St.quality_len st + String.length (Py.strip raw))%nat
  = St.sequence_len st ->
  let c := record_of (St.push_quality (Py.strip raw) st) in
  body args lineno st raw
  = {| printed := fst (print_fastq args c);
       handed := Some c;
       after := match snd (print_fastq args c) with
                | None => Next St.init
                | Some e => Halt (Raised e)
                end |}.
Proof.
  intros Hs Hq c. subst c.
  destruct (body_feeds args lineno st raw) as
    [ | | | | | out _ _ Hp | out e _ _ Hp | | ];
    unfold awaiting_quality, awaiting_sequence, in_progress in *;
    try (destruct (Py.truthy (St.at_line st)),
           (Py.truthy (St.plus_line st)); discriminate);
    try lia; now rewrite Hp.
Qed.

Lemma loop_silent (args : Args.t) (lineno : nat) (st st1 : St.t)
    (raw : string) (rest : list string) :
  body args lineno st raw = silent (Next st1) ->
  loop args lineno st (raw :: rest) = loop args (Datatypes.S lineno) st1 rest.
Proof.
  intros H. cbn [loop]. rewrite H. cbn.
  now destruct (loop args (Datatypes.S lineno) st1 rest).
Qed.

End Steps.

(** ** Runs that do not depend on the colour state

    On uppercase sequences [ansi_terminate_lines] has nothing to do, so a run
    is the same under every [AnsiState] that reports no colour when fresh; it
    can then be computed under [SgrState]. *)

Section Independence.
Context {S : Type} {A : AnsiState S}.
Hypothesis fresh_code : code fresh = EmptyString.

Lemma print_fastq_upper (args : Args.t) (c : Call.t) :
  all_upper (Call.sequence c) = true ->
  print_fastq (A := A) args c = print_fastq (A := SgrState) args c.
Proof.
  intros H. unfold print_fastq.
  rewrite (wrap_upper (A := A) _ _ fresh_code H).
  rewrite (wrap_upper (A := SgrState) _ _ eq_refl H).
  reflexivity.
Qed.

Lemma body_upper (args : Args.t) (lineno : nat) (st : St.t) (raw : string) :
  all_upper (Py.join (St.sequence st)) = true ->
  body (A := A) args lineno st raw = body (A := SgrState) args lineno st raw.
Proof.
  intros H. unfold body.
  destruct (St.at_line st) as [[|c r]|]; try reflexivity.
  destruct (St.plus_line st) as [[|d q]|]; try reflexivity.
  cbn [St.push_quality St.quality_len St.sequence_len St.sequence St.quality].
  destruct (Nat.eqb _ _); [| reflexivity].
  now rewrite print_fastq_upper.
Qed.

Lemma loop_upper (args : Args.t) (input : list string) :
  forall lineno st,
    all_upper (Py.join (St.sequence st)) = true ->
    forallb all_upper (sequence_lines (A := SgrState) args lineno st input)
    = true ->
    loop (A := A) args lineno st input
    = loop (A := SgrState) args lineno st input.
Proof.
  induction input as [|raw rest IH]; intros lineno st Hst; [reflexivity |].
  cbn [loop sequence_lines]. rewrite (body_upper _ _ _ _ Hst).
  rewrite forallb_app.
  destruct (body_feeds (A := SgrState) args lineno st raw) as
    [ | | Hs Hp | | n Hs Hp _ | | | | ];
    cbn [silent printed handed after]; intros Hl;
    apply andb_prop in Hl as [Hh Hl];
    try reflexivity; try (now rewrite IH).
  rewrite IH; [reflexivity | | exact Hl].
  cbn [St.push_sequence St.sequence].
  rewrite join_snoc, all_upper_append, Hst.
  rewrite Hs, Hp in Hh. cbn in Hh. now rewrite andb_true_r in Hh.
Qed.

Lemma start_upper (get_columns : Z) (args : Args.t) (input : list string) :
  forallb all_upper
    (sequence_lines (A := SgrState) (default_columns get_columns args)
                    0 St.init input) = true ->
  start (A := A) get_columns args input
  = start (A := SgrState) get_columns args input.
Proof.
  intros H. unfold start. destruct (bad_max_quality _); [reflexivity |].
  now apply loop_upper.
Qed.

End Independence.

(** ** Scenarios *)

(** C7. The record [@r1 / ACGTACGT / + / !!!!!!!!], without colours and
    without blank lines, is rendered at 4 columns as the six lines [@r1],
    [ACGT], [!!!!], [ACGT], [!!!!], [+] and at 8 columns as the four lines
    [@r1], [ACGTACGT], [!!!!!!!!], [+]. *)
Theorem scenario_wrapping {S : Type} {A : AnsiState S} (get_columns : Z) :
  code fresh = EmptyString ->
  let input := fed ["@r1"; "ACGTACGT"; "+"; "!!!!!!!!"] in
  (stdout (start get_columns (plain_args 4) input)
   = ["@r1"; "ACGT"; "!!!!"; "ACGT"; "!!!!"; "+"]
   /\ exit (start get_columns (plain_args 4) input) = Finished St.init)
  /\ (stdout (start get_columns (plain_args 8) input)
      = ["@r1"; "ACGTACGT"; "!!!!!!!!"; "+"]
      /\ exit (start get_columns (plain_args 8) input) = Finished St.init).
Proof.
  intros Hc input. subst input.
  rewrite !(start_upper Hc) by (vm_compute; reflexivity).
  repeat split; vm_compute; reflexivity.
Qed.

Lemma scenario_wrapping_witness :
  stdout (start (A := SgrState) 80 (plain_args 4)
            (fed ["@r1"; "ACGTACGT"; "+"; "!!!!!!!!"]))
  = ["@r1"; "ACGT"; "!!!!"; "ACGT"; "!!!!"; "+"].
Proof. apply (scenario_wrapping (A := SgrState) 80 eq_refl). Defined.

Lemma truthy_startswith (line p : string) :
  Py.nonempty p = true -> Py.startswith line p = true ->
  Py.truthy (Some line) = true.
Proof. intros Hp H. apply (startswith_nonempty _ _ Hp) in H. now destruct line. Qed.

Section Scenarios.
Context {S : Type} {A : AnsiState S}.

(** C8. Whatever the header line, a sequence given as the two lines [ACGT]
    and [ACGT], then a separator and one quality line of 8 characters,
    makes the same run as the sequence given as the single line
    [ACGTACGT].  With a header that starts with [@], the two sequence lines
    are both in the sequence buffer, with a sequence length of 8, before the
    separator is read, and each of the two runs hands over the one record
    whose sequence is [ACGTACGT], prints what [print_fastq] prints for it
    and ends as that call ends; with any other header each of the two runs
    ends in [die] on the header line. *)
Theorem split_sequence_same_run (get_columns : Z) (args : Args.t)
    (header sep qual : string) :
  Py.startswith (Py.strip sep) "+" = true ->
  String.length (Py.strip qual) = 8%nat ->
  let a := default_columns get_columns args in
  let split :=
    start get_columns args
          (header :: fed ["ACGT"; "ACGT"] ++ [sep; qual])%list in
  let single :=
    start get_columns args (header :: fed ["ACGTACGT"] ++ [sep; qual])%list in
  let c := {| Call.at_line := Py.strip header; Call.sequence := "ACGTACGT";
              Call.plus_line := Py.strip sep;
              Call.quality := Py.strip qual |} in
  split = single
  /\ (bad_max_quality (Args.max_quality args) = false ->
      Py.startswith (Py.strip header) "@" = true ->
      loop a 0 St.init (header :: fed ["ACGT"; "ACGT"])
      = quiet {| St.at_line := Some (Py.strip header);
                 St.plus_line := None;
                 St.sequence := ["ACGT"; "ACGT"]; St.quality := [];
                 St.quality_len := 0; St.sequence_len := 8 |}
      /\ single
         = {| stdout := fst (print_fastq a c);
              calls := [c];
              exit := match snd (print_fastq a c) with
                      | None => Finished St.init
                      | Some e => Raised e
                      end |})
  /\ (bad_max_quality (Args.max_quality args) = false ->
      Py.startswith (Py.strip header) "@" = false ->
      single
      = {| stdout := []; calls := [];
           exit := Died (BadValue 0 (Py.strip header)) |}).
Proof.
  intros Hsep Hqual a split single c.
  set (done := {| stdout := fst (print_fastq a c);
                  calls := [c];
                  exit := match snd (print_fastq a c) with
                          | None => Finished St.init
                          | Some e => Raised e
                          end |}).
  set (bad := {| stdout := []; calls := [];
                 exit := Died (BadValue 0 (Py.strip header)) |}).
  assert (bad_max_quality (Args.max_quality args) = false ->
          Py.startswith (Py.strip header) "@" = false ->
          split = bad /\ single = bad) as Hbad.
  { intros Hmq Hh. subst split single. unfold start. rewrite Hmq. fold a.
    cbn [fed map app loop].
    rewrite !(body_bad_header a 0 St.init _ eq_refl Hh). now split. }
  assert (bad_max_quality (Args.max_quality args) = false ->
          Py.startswith (Py.strip header) "@" = true ->
          loop a 0 St.init (header :: fed ["ACGT"; "ACGT"])
          = quiet {| St.at_line := Some (Py.strip header);
                     St.plus_line := None;
                     St.sequence := ["ACGT"; "ACGT"]; St.quality := [];
                     St.quality_len := 0; St.sequence_len := 8 |}
          /\ split = done /\ single = done) as Hgood.
  { intros Hmq Hh. subst split single. unfold start. rewrite Hmq. fold a.
    cbn [fed map app].
    pose proof (truthy_startswith _ "@" eq_refl Hh) as Hat.
    pose proof (truthy_startswith _ "+" eq_refl Hsep) as Hplus.
    set (st1 := St.set_at_line (Py.strip header) St.init).
    assert (awaiting_sequence st1 = true) as H1
      by (apply andb_true_intro; split; [exact Hat | reflexivity]).
    rewrite !(loop_silent _ _ _ _ _ _
                (body_header a 0 St.init header eq_refl Hh)).
    fold st1.
    (* the split sequence *)
    rewrite !(loop_silent _ _ _ _ _ _
                (body_sequence a 1 st1 ("ACGT" ++ String LF "") 4 H1
                               eq_refl eq_refl)).
    set (st2 := St.push_sequence _ 4 st1).
    rewrite !(loop_silent _ _ _ _ _ _
                (body_sequence a 2 st2 ("ACGT" ++ String LF "") 4 H1
                               eq_refl eq_refl)).
    set (st3 := St.push_sequence _ 4 st2).
    split; [reflexivity |].
    rewrite (loop_silent _ _ _ _ _ _ (body_separator a 3 st3 sep H1 Hsep)).
    set (st4 := St.set_plus_line _ st3).
    (* the single line *)
    rewrite (loop_silent _ _ _ _ _ _
               (body_sequence a 1 st1 ("ACGTACGT" ++ String LF "") 8 H1
                              eq_refl eq_refl)).
    set (st3' := St.push_sequence _ 8 st1).
    rewrite (loop_silent _ _ _ _ _ _ (body_separator a 2 st3' sep H1 Hsep)).
    set (st4' := St.set_plus_line _ st3').
    assert (awaiting_quality st4 = true /\ awaiting_quality st4' = true)
      as [H4 H4']
      by (split; apply andb_true_intro; split; assumption).
    cbn [loop].
    rewrite (body_complete a 4 st4 qual H4) by (cbn; now rewrite Hqual).
    rewrite (body_complete a 3 st4' qual H4') by (cbn; now rewrite Hqual).
    change (record_of (St.push_quality (Py.strip qual) st4')) with c.
    change (record_of (St.push_quality (Py.strip qual) st4)) with c.
    cbn [printed handed after]. subst done.
    destruct (snd (print_fastq a c)); cbn; rewrite ?app_nil_r; now split. }
  split; [| split].
  - destruct (bad_max_quality (Args.max_quality args)) eqn:Hmq.
    + subst split single. unfold start. now rewrite Hmq.
    + destruct (Py.startswith (Py.strip header) "@") eqn:Hh.
      * destruct (Hgood eq_refl eq_refl) as [_ [-> ->]]. reflexivity.
      * destruct (Hbad eq_refl eq_refl) as [-> ->]. reflexivity.
  - intros Hmq Hh. destruct (Hgood Hmq Hh) as [H1 [_ H3]]. now split.
  - intros Hmq Hh. now destruct (Hbad Hmq Hh).
Qed.

(** C10. A separator right after the header, followed by an empty line,
    closes a record with an empty sequence and an empty quality; it is
    rendered as the header line and the separator line, nothing between
    them, and the run goes on without error. *)
Theorem empty_record (get_columns : Z) (args : Args.t)
    (header sep blank : string) :
  bad_max_quality (Args.max_quality args) = false ->
  Py.startswith (Py.strip header) "@" = true ->
  Py.startswith (Py.strip sep) "+" = true ->
  Py.strip blank = EmptyString ->
  start get_columns args [header; sep; blank]
  = {| stdout := [Py.strip header; Py.strip sep];
       calls := [ {| Call.at_line := Py.strip header;
                     Call.sequence := EmptyString;
                     Call.plus_line := Py.strip sep;
                     Call.quality := EmptyString |} ];
       exit := Finished St.init |}.
Proof.
  intros Hmq Hh Hsep Hblank. unfold start. rewrite Hmq.
  set (a := default_columns get_columns args).
  pose proof (truthy_startswith _ "@" eq_refl Hh) as Hat.
  pose proof (truthy_startswith _ "+" eq_refl Hsep) as Hplus.
  set (st1 := St.set_at_line (Py.strip header) St.init).
  assert (awaiting_sequence st1 = true) as H1
    by (apply andb_true_intro; split; [exact Hat | reflexivity]).
  rewrite (loop_silent _ _ _ _ _ _ (body_header a 0 St.init header eq_refl Hh)).
  fold st1.
  rewrite (loop_silent _ _ _ _ _ _ (body_separator a 1 st1 sep H1 Hsep)).
  set (st2 := St.set_plus_line _ st1).
  assert (awaiting_quality st2 = true) as H2
    by (apply andb_true_intro; split; assumption).
  cbn [loop].
  rewrite (body_complete a 2 st2 blank H2) by (now rewrite Hblank).
  rewrite Hblank. reflexivity.
Qed.

End Scenarios.

Lemma split_sequence_same_run_witness :
  start (A := SgrState) 80 (plain_args 4)
        ("@r1" :: fed ["ACGT"; "ACGT"] ++ ["+"; "!!!!!!!!"])%list
  = {| stdout := ["@r1"; "ACGT"; "!!!!"; "ACGT"; "!!!!"; "+"];
       calls := [ {| Call.at_line := "@r1"; Call.sequence := "ACGTACGT";
                     Call.plus_line := "+"; Call.quality := "!!!!!!!!" |} ];
       exit := Finished St.init |}.
Proof.
  destruct (split_sequence_same_run (A := SgrState) 80 (plain_args 4)
              "@r1" "+" "!!!!!!!!" eq_refl eq_refl) as [E [H _]].
  rewrite E. destruct (H eq_refl eq_refl) as [_ ->]. reflexivity.
Defined.

Lemma empty_record_witness :
  stdout (start (A := SgrState) 80 (plain_args 4) (fed ["@r1"; "+"; ""]))
  = ["@r1"; "+"].
Proof.
  exact (f_equal stdout
           (empty_record (A := SgrState) 80 (plain_args 4)
              ("@r1" ++ String LF "") ("+" ++ String LF "") ("" ++ String LF "")
              eq_refl eq_refl eq_refl eq_refl)).
Defined.

(** ** [strip] *)


Lemma rstrip_spaces (ws : string) :
  all_space ws = true -> Py.rstrip ws = EmptyString.
Proof.
  induction ws as [|c ws IH]; [reflexivity |].
  cbn [all_space Py.rstrip]. intros H. apply andb_prop in H as [Hc Hw].
  now rewrite (IH Hw), Hc.
Qed.








Section Strip.
Context {S : Type} {A : AnsiState S}.


End Strip.



(** ** The maximum quality ['!'] *)

(** C3, what the code does. With [--max-quality '!'] the test at the start
    of [start] passes, the input is read, the first record is handed to
    [print_fastq], and colouring its first quality segment divides by
    [ord('!') - ord('!')]: the run ends with [ZeroDivisionError], whatever the
    colour state of [ansiwrap]. *)
Theorem bang_max_quality_divides_by_zero {S : Type} {A : AnsiState S}
    (get_columns : Z) :
  bad_max_quality (Args.max_quality bang_args) = false
  /\ colorize_quality "!!!!" (Args.max_quality bang_args)
     = Raise ZeroDivisionError
  /\ calls (start get_columns bang_args (fed ["@r1"; "ACGT"; "+"; "!!!!"]))
     = [ {| Call.at_line := "@r1"; Call.sequence := "ACGT";
            Call.plus_line := "+"; Call.quality := "!!!!" |} ]
  /\ exit (start get_columns bang_args (fed ["@r1"; "ACGT"; "+"; "!!!!"]))
     = Raised ZeroDivisionError.
Proof.
  destruct A as [fr co cd].
  repeat split; vm_compute; try reflexivity; destruct (cd fr); reflexivity.
Qed.

(** ** Pairing the wrapped segments *)

(** The pairs are checked in order: the first one whose visible lengths
    differ is printed and ends the loop with both lengths. *)
Lemma print_pairs_mismatch (args : Args.t) (s q : string)
    (post : list (string * string)) :
  ansilen s <> ansilen q ->
  forall pre out,
    print_pairs args pre = (out, None) ->
    print_pairs args (pre ++ (s, q) :: post)
    = ((out ++ [s; q])%list, Some (LengthsDiffer (ansilen s) (ansilen q))).
Proof.
  intros Hne. induction pre as [|[a b] pre IH]; intros out Hpre.
  - injection Hpre as <-. cbn [app print_pairs].
    apply Nat.eqb_neq in Hne. now rewrite Hne.
  - rewrite <- app_comm_cons. cbn [print_pairs] in Hpre |- *.
    destruct (negb (Nat.eqb (ansilen a) (ansilen b))); [discriminate Hpre |].
    destruct (if Args.colorize_quality args then _ else _) as [b' | e];
      [| discriminate Hpre].
    destruct (print_pairs args pre) as [out' e'] eqn:Hp.
    injection Hpre as <- ->. rewrite (IH out' eq_refl).
    cbn [app]. now rewrite app_assoc.
Qed.

(** In raw count mode the lengths of the segments depend on the length of
    the text alone. *)
Lemma wrap_scan_lengths (columns : option Z) (t1 : string) :
  forall t2 l1 l2 ls1 ls2,
    String.length t1 = String.length t2 ->
    String.length l1 = String.length l2 ->
    map String.length ls1 = map String.length ls2 ->
    String.length (fst (wrap_scan false columns t1 l1 ls1))
    = String.length (fst (wrap_scan false columns t2 l2 ls2))
    /\ map String.length (snd (wrap_scan false columns t1 l1 ls1))
       = map String.length (snd (wrap_scan false columns t2 l2 ls2)).
Proof.
  induction t1 as [|c t1 IH]; intros [|d t2] l1 l2 ls1 ls2 Ht Hl Hls;
    try discriminate Ht; [now split |].
  injection Ht as Ht. cbn [wrap_scan].
  assert (String.length (l1 ++ String c "") = String.length (l2 ++ String d ""))
    as Hl' by (rewrite !length_append; cbn; lia).
  rewrite Hl'. destruct (at_width _ columns).
  - apply IH; [exact Ht | reflexivity |].
    rewrite !map_app. cbn [map]. now rewrite Hls, Hl'.
  - now apply IH.
Qed.

Lemma wrap_lines_lengths (columns : option Z) (t1 t2 : string) :
  String.length t1 = String.length t2 ->
  map String.length (wrap_lines t1 false columns)
  = map String.length (wrap_lines t2 false columns).
Proof.
  intros Ht. unfold wrap_lines.
  destruct (wrap_scan_lengths columns t1 t2 "" "" [] [] Ht eq_refl eq_refl)
    as [Hl Hls].
  destruct (wrap_scan false columns t1 "" []) as [l1 ls1].
  destruct (wrap_scan false columns t2 "" []) as [l2 ls2].
  cbn [fst snd] in Hl, Hls.
  destruct l1, l2; try discriminate Hl; cbn [Py.nonempty]; [exact Hls |].
  rewrite !map_app. cbn [map]. now rewrite Hls, Hl.
Qed.

(** Pairs that agree are all printed (nothing being coloured), however many
    there are. *)
Lemma print_pairs_agree (args : Args.t) (pairs : list (string * string)) :
  Args.colorize_quality args = false ->
  (forall s q, In (s, q) pairs -> ansilen s = ansilen q) ->
  print_pairs args pairs = (flat_map (pair_lines args) pairs, None).
Proof.
  intros Hcol. induction pairs as [|[a b] pairs IH]; intros Hall;
    [reflexivity |].
  cbn [print_pairs flat_map pair_lines fst snd].
  rewrite (Hall a b (or_introl eq_refl)), Nat.eqb_refl, Hcol. cbn [negb].
  rewrite IH; [reflexivity |].
  intros s q Hin. apply Hall. now right.
Qed.

(** When the pairs agree, the one thing that can stop the loop is
    [colorize_quality] raising on a quality segment. *)
Lemma print_pairs_agree_exn (args : Args.t) (pairs : list (string * string))
    (e : exn) :
  (forall s q, In (s, q) pairs -> ansilen s = ansilen q) ->
  snd (print_pairs args pairs) = Some e ->
  Args.colorize_quality args = true
  /\ exists s q,
       In (s, q) pairs
       /\ colorize_quality q (Args.max_quality args) = Raise e.
Proof.
  induction pairs as [|[a b] pairs IH]; intros Hall; [discriminate |].
  cbn [print_pairs].
  rewrite (Hall a b (or_introl eq_refl)), Nat.eqb_refl. cbn [negb].
  destruct (Args.colorize_quality args) eqn:Hcol.
  - destruct (colorize_quality b (Args.max_quality args)) as [b' | e'] eqn:Hb.
    + destruct (print_pairs args pairs) as [out e''] eqn:Hp. cbn [snd].
      intros ->.
      destruct IH as [_ [s [q [Hin Hq]]]];
        [intros s q Hin; apply Hall; now right | reflexivity |].
      split; [reflexivity |]. exists s, q. split; [now right | exact Hq].
    + cbn [snd]. intros [= <-]. split; [reflexivity |].
      exists a, b. split; [now left | exact Hb].
  - destruct (print_pairs args pairs) as [out e''] eqn:Hp. cbn [snd].
    intros ->.
    destruct IH as [Hf _];
      [intros s q Hin; apply Hall; now right | reflexivity | discriminate Hf].
Qed.

Lemma quality_no_escape (s : string) :
  all_quality s = true -> no_escape s = true.
Proof.
  induction s as [|c s IH]; [reflexivity |]. cbn [all_quality no_escape].
  intros H. apply andb_prop in H as [Hc Hs]. rewrite (IH Hs), andb_true_r.
  destruct (Ascii.eqb_spec c ESC) as [-> |]; [discriminate Hc | reflexivity].
Qed.

Lemma map_ansilen_plain (lines : list string) :
  forallb no_escape lines = true ->
  map ansilen lines = map String.length lines.
Proof.
  intros H. apply map_ext_in. intros l Hl. apply ansilen_plain.
  rewrite forallb_forall in H. now apply H.
Qed.

Section Pairing.
Context {S : Type} {A : AnsiState S}.

Lemma print_fastq_wrapped (args : Args.t) (c : Call.t)
    (sequence_lines : list string) :
  wrap (Call.sequence c) true (Args.columns args) = Ok sequence_lines ->
  print_fastq args c
  = match print_pairs args
            (combine sequence_lines
                     (wrap (Call.quality c) false (Args.columns args))) with
    | (out, None) => (Call.at_line c :: out ++ [Call.plus_line c], None)%list
    | (out, Some e) => (Call.at_line c :: out, Some e)
    end.
Proof. intros H. unfold print_fastq. now rewrite H. Qed.

(** C4, as the code has it. Once the sequence is wrapped (an exception of
    [ansiwrap] at that point ends rendering after the header), the sequence
    and quality segments are paired position by position, up to the shorter
    list.  At the first pair whose visible lengths differ, both segments are
    printed and rendering stops with an exception carrying both lengths.
    The numbers of segments are not compared.  When the pairs agree the
    check never fails: without colouring the record is rendered to the end,
    and with colouring rendering can stop only on an exception of
    [colorize_quality] on a quality segment.  For a record handed over
    whose sequence is made of uppercase letters the sequence is wrapped
    without exception and the two numbers are equal, and then, when the
    quality is made of quality characters and a fresh colour state reports
    no colour, the paired segments have equal visible lengths. *)
Theorem render_pairing (args : Args.t) (c : Call.t) :
  let quality_lines := wrap (Call.quality c) false (Args.columns args) in
  (forall e,
      wrap (Call.sequence c) true (Args.columns args) = Raise e ->
      print_fastq args c = ([Call.at_line c], Some e))
  /\ (forall sequence_lines,
         wrap (Call.sequence c) true (Args.columns args) = Ok sequence_lines ->
         let pairs := combine sequence_lines quality_lines in
         (forall pre s q post out,
             pairs = (pre ++ (s, q) :: post)%list ->
             print_pairs args pre = (out, None) ->
             ansilen s <> ansilen q ->
             print_fastq args c
             = ((Call.at_line c :: out ++ [s; q])%list,
                Some (LengthsDiffer (ansilen s) (ansilen q))))
         /\ ((forall s q, In (s, q) pairs -> ansilen s = ansilen q) ->
             (Args.colorize_quality args = false ->
              print_fastq args c
              = ((Call.at_line c :: flat_map (pair_lines args) pairs
                    ++ [Call.plus_line c])%list, None))
             /\ (forall e,
                    snd (print_fastq args c) = Some e ->
                    Args.colorize_quality args = true
                    /\ exists s q,
                         In (s, q) pairs
                         /\ colorize_quality q (Args.max_quality args)
                            = Raise e)))
  /\ (forall get_columns args0 input,
         In c (calls (start get_columns args0 input)) ->
         all_upper (Call.sequence c) = true ->
         exists sequence_lines,
           wrap (Call.sequence c) true (Args.columns args) = Ok sequence_lines
           /\ List.length sequence_lines = List.length quality_lines
           /\ (code fresh = EmptyString ->
               all_quality (Call.quality c) = true ->
               map ansilen sequence_lines = map ansilen quality_lines)).
Proof.
  intros quality_lines. split; [| split].
  - intros e He. unfold print_fastq. now rewrite He.
  - intros sequence_lines Hw pairs. split.
    + intros pre s q post out Hzip Hpre Hne.
      rewrite (print_fastq_wrapped _ _ _ Hw). fold quality_lines. fold pairs.
      now rewrite Hzip, (print_pairs_mismatch args s q post Hne pre out Hpre).
    + intros Hall. split.
      * intros Hcol. rewrite (print_fastq_wrapped _ _ _ Hw).
        fold quality_lines. fold pairs.
        now rewrite (print_pairs_agree args _ Hcol Hall).
      * intros e. rewrite (print_fastq_wrapped _ _ _ Hw).
        fold quality_lines. fold pairs. intros He.
        apply (print_pairs_agree_exn args pairs e Hall).
        now destruct (print_pairs args pairs) as [out [e'|]].
  - intros get_columns args0 input Hin Hup.
    assert (String.length (Call.sequence c) = String.length (Call.quality c))
      as Hlen.
    { unfold start in Hin.
      destruct (bad_max_quality _); [destruct Hin |].
      rewrite <- (calls_counted _ _ _ _ _ counted_init Hin).
      now rewrite (ansistrip_upper _ Hup). }
    pose proof (wrap_lines_lengths (Args.columns args) _ _ Hlen) as Hmap.
    assert (forallb no_escape
              (wrap_lines (Call.sequence c) false (Args.columns args)) = true)
      as Hplain
      by (apply (wrap_lines_forallb no_escape);
          [reflexivity | apply no_escape_append | now apply upper_no_escape]).
    unfold wrap, ansi_terminate_lines. rewrite (wrap_lines_upper _ _ Hup).
    destruct (terminate_loop_accepts _ fresh None Hplain) as [out Hout].
    exists out. split; [exact Hout |]. split.
    + rewrite (terminate_loop_length _ _ _ _ Hout).
      rewrite <- (length_map String.length), Hmap. apply length_map.
    + intros Hc Hq.
      rewrite (terminate_loop_plain _ fresh None Hc eq_refl Hplain) in Hout.
      injection Hout as <-. subst quality_lines. unfold wrap.
      rewrite !map_ansilen_plain; [exact Hmap | | exact Hplain].
      apply (wrap_lines_forallb no_escape);
        [reflexivity | apply no_escape_append |].
      now apply quality_no_escape.
Qed.

(** A coloured read ends in a reset code, which [wrap] leaves alone in a
    segment of its own: the sequence has one segment more than the quality,
    [zip] drops it, and the record is rendered without error, under every
    colour state that accepts the two codes of the read. *)
Lemma trailing_reset_dropped (get_columns : Z) (s1 s2 : S) :
  consume fresh "31m" = Ok s1 -> consume s1 "0m" = Ok s2 ->
  let c := {| Call.at_line := "@r1"; Call.sequence := red_read;
              Call.plus_line := "+"; Call.quality := "!!!!" |} in
  let r := start get_columns (plain_args 4) (fed ["@r1"; red_read; "+"; "!!!!"]) in
  calls r = [c]
  /\ (exists s q, wrap (Call.sequence c) true (Some 4) = Ok [s; q])
  /\ wrap (Call.quality c) false (Some 4) = ["!!!!"]
  /\ exit r = Finished St.init.
Proof.
  intros H1 H2 c r.
  assert (exists s q, wrap (Call.sequence c) true (Some 4) = Ok [s; q]
                      /\ ansilen s = 4%nat) as [s [q [Hw Hs]]].
  { unfold wrap, ansi_terminate_lines.
    change (wrap_lines (Call.sequence c) true (Some 4))
      with [String ESC "[31mACGT"; String ESC "[0m"].
    cbn [terminate_loop].
    change (findall_ansire 0 (String ESC "[31mACGT")) with ["31m"].
    change (findall_ansire 0 (String ESC "[0m")) with ["0m"].
    cbn [consume_all bind]. rewrite H1. cbn [bind]. rewrite H2. cbn [bind].
    eexists. eexists. split; [reflexivity |].
    unfold ansilen, strip_color.
    destruct (code s1) as [|x y]; cbn [Py.nonempty]; reflexivity. }
  assert (print_fastq (plain_args 4) c = (["@r1"; s; "!!!!"; "+"], None))
    as Hp.
  { rewrite (print_fastq_wrapped (plain_args 4) c _ Hw).
    change (wrap (Call.quality c) false (Args.columns (plain_args 4)))
      with ["!!!!"].
    cbn [combine print_pairs]. rewrite Hs. reflexivity. }
  assert (r = {| stdout := ["@r1"; s; "!!!!"; "+"]; calls := [c];
                 exit := Finished St.init |}) as ->.
  { subst r. unfold start.
    change (bad_max_quality (Args.max_quality (plain_args 4))) with false.
    cbn iota.
    change (default_columns get_columns (plain_args 4)) with (plain_args 4).
    unfold fed. cbn [map].
    pose (st1 := St.set_at_line "@r1" St.init).
    pose (st2 := St.push_sequence red_read 4 st1).
    pose (st3 := St.set_plus_line "+" st2).
    rewrite (loop_silent _ _ _ st1 _ _
               (body_header (plain_args 4) 0 St.init ("@r1" ++ String LF "")
                  eq_refl eq_refl)).
    rewrite (loop_silent _ _ _ st2 _ _
               (body_sequence (plain_args 4) 1 st1 (red_read ++ String LF "")
                  4 eq_refl eq_refl eq_refl)).
    rewrite (loop_silent _ _ _ st3 _ _
               (body_separator (plain_args 4) 2 st2 ("+" ++ String LF "")
                  eq_refl eq_refl)).
    cbn [loop].
    rewrite (body_complete (plain_args 4) 3 st3 ("!!!!" ++ String LF "")
               eq_refl eq_refl).
    change (record_of _) with c. rewrite Hp. reflexivity. }
  repeat split. now exists s, q.
Qed.

End Pairing.

Lemma render_pairing_witness :
  print_fastq (A := SgrState) (plain_args 8)
    {| Call.at_line := "@r1"; Call.sequence := "AAAAA";
       Call.plus_line := "+"; Call.quality := String ESC "[31m" |}
  = (["@r1"; "AAAAA"; String ESC "[31m"], Some (LengthsDiffer 5 0)).
Proof.
  destruct (render_pairing (A := SgrState) (plain_args 8)
              {| Call.at_line := "@r1"; Call.sequence := "AAAAA";
                 Call.plus_line := "+"; Call.quality := String ESC "[31m" |})
    as [_ [H _]].
  destruct (H ["AAAAA"] eq_refl) as [H' _].
  apply (H' [] "AAAAA" (String ESC "[31m") [] []);
    [reflexivity | reflexivity | discriminate].
Defined.

(** C4 as stated fails: the record of a read written in red reaches the
    renderer with two sequence segments against one quality segment, and is
    rendered to the end without error. *)
Lemma segment_count_unchecked :
  let c := {| Call.at_line := "@r1"; Call.sequence := red_read;
              Call.plus_line := "+"; Call.quality := "!!!!" |} in
  let r := start (A := SgrState) 80 (plain_args 4)
                 (fed ["@r1"; red_read; "+"; "!!!!"]) in
  calls r = [c]
  /\ wrap (A := SgrState) (Call.sequence c) true (Some 4)
     = Ok [red_read; String ESC "[31m" ++ String ESC "[0m"]
  /\ wrap (A := SgrState) (Call.quality c) false (Some 4) = ["!!!!"]
  /\ stdout r = ["@r1"; red_read; "!!!!"; "+"]
  /\ exit r = Finished St.init.
Proof. repeat split; vm_compute; reflexivity. Qed.

(** ** The theorems at work on concrete input *)

Lemma emitted_lengths_agree_witness :
  let c := {| Call.at_line := "@r1"; Call.sequence := "ACGTACGT";
              Call.plus_line := "+"; Call.quality := "!!!!!!!!" |} in
  In c (calls (start (A := SgrState) 80 (plain_args 4)
                 (fed ["@r1"; "ACGTACGT"; "+"; "!!!!!!!!"])))
  /\ String.length (Call.sequence c) = String.length (Call.quality c).
Proof.
  intros c.
  assert (In c (calls (start (A := SgrState) 80 (plain_args 4)
                         (fed ["@r1"; "ACGTACGT"; "+"; "!!!!!!!!"])))) as Hin
    by (vm_compute; now left).
  split; [exact Hin |].
  destruct (emitted_lengths_agree (A := SgrState) (plain_args 4)) as [_ H].
  apply (H 80 (fed ["@r1"; "ACGTACGT"; "+"; "!!!!!!!!"]) c); [| exact Hin].
  intros l Hl. vm_compute in Hl. destruct Hl as [<- | []]. reflexivity.
Defined.

Lemma quality_overrun_is_fatal_witness :
  loop (A := SgrState) (plain_args 4) 0 St.init
       (fed ["@r1"; "ACGT"; "+"; "!!!!!"])
  = {| stdout := []; calls := []; exit := Died (QualityLonger 3 5 4) |}.
Proof.
  destruct (quality_overrun_is_fatal (A := SgrState) (plain_args 4)) as [_ H].
  destruct (H (fed ["@r1"; "ACGT"; "+"]) ("!!!!!" ++ String LF "") [] [] []
              (St.set_plus_line "+"
                 (St.push_sequence "ACGT" 4 (St.set_at_line "@r1" St.init)))
              eq_refl eq_refl) as [Hrun _].
  - vm_compute. lia.
  - exact Hrun.
Defined.

(** * Further properties of the script *)

(** ** [ansistrip] and [colorless_len] *)

Lemma all_upper_ansistrip (s : string) : all_upper (ansistrip s) = true.
Proof.
  induction s as [|c s IH]; [reflexivity |]. cbn [ansistrip].
  destruct (is_upper c) eqn:Hc; [| exact IH]. cbn. now rewrite Hc.
Qed.

Lemma length_ansistrip (s : string) :
  (String.length (ansistrip s) <= String.length s)%nat.
Proof.
  induction s as [|c s IH]; cbn; [lia |]. destruct (is_upper c); cbn; lia.
Qed.

Lemma length_ansistrip_full (s : string) :
  String.length (ansistrip s) = String.length s -> all_upper s = true.
Proof.
  induction s as [|c s IH]; [reflexivity |]. cbn.
  pose proof (length_ansistrip s). destruct (is_upper c); cbn; [| lia].
  intros H'. apply IH. lia.
Qed.

Lemma ansistrip_filter (s : string) :
  list_ascii_of_string (ansistrip s)
  = filter is_upper (list_ascii_of_string s).
Proof.
  induction s as [|c s IH]; [reflexivity |].
  cbn [ansistrip list_ascii_of_string filter].
  destruct (is_upper c); [cbn [list_ascii_of_string]; now rewrite IH | exact IH].
Qed.

(** X1. [ansistrip] keeps the letters [A]..[Z] of a text, in order, and
    nothing else: the characters of its result are the characters of the
    text that lie between [A] and [Z], in the order of the text.  So its
    result is made of uppercase letters, stripping twice is stripping once,
    the strip of a concatenation is the concatenation of the strips, the
    result is never longer than the text, and the texts it leaves unchanged
    are exactly the uppercase ones. *)
Theorem ansistrip_keeps_letters (a b : string) :
  list_ascii_of_string (ansistrip a)
  = filter is_upper (list_ascii_of_string a)
  /\ (forall c, is_upper c = true <-> in_range "A" "Z" c)
  /\ all_upper (ansistrip a) = true
  /\ ansistrip (ansistrip a) = ansistrip a
  /\ ansistrip (a ++ b) = ansistrip a ++ ansistrip b
  /\ (String.length (ansistrip a) <= String.length a)%nat
  /\ (ansistrip a = a <-> all_upper a = true).
Proof.
  split; [apply ansistrip_filter |].
  split.
  { intros c. unfold is_upper, in_range.
    now rewrite andb_true_iff, !Z.leb_le. }
  split; [apply all_upper_ansistrip |].
  split; [apply ansistrip_upper, all_upper_ansistrip |].
  split; [apply ansistrip_append |].
  split; [apply length_ansistrip |].
  split; [| apply ansistrip_upper].
  intros H. apply length_ansistrip_full. now rewrite H.
Qed.

(** X2. On a line of ASCII characters without the escape character,
    [colorless_len] returns the length of the line when the line is made of
    uppercase letters, and otherwise calls [die] with the two lengths it
    could not reconcile: the whole length and the smaller number of
    uppercase letters. *)
Theorem colorless_len_plain (line : string) :
  all_ascii line = true -> no_escape line = true ->
  (all_upper line = true -> colorless_len line = inl (String.length line))
  /\ (all_upper line = false ->
      colorless_len line
      = inr (UnableToDetermineLength (String.length line)
               (String.length (ansistrip line)) line)
      /\ (String.length (ansistrip line) < String.length line)%nat).
Proof.
  intros _ Hne. unfold colorless_len. rewrite (ansilen_plain _ Hne). split.
  - intros Hup. now rewrite (ansistrip_upper _ Hup), Nat.eqb_refl.
  - intros Hup.
    assert (String.length (ansistrip line) <> String.length line) as Hn.
    { intros H. apply length_ansistrip_full in H. congruence. }
    pose proof (length_ansistrip line) as Hle.
    split; [| lia].
    destruct (Nat.eqb_spec (String.length line)
                (String.length (ansistrip line))) as [E | _];
      [now destruct Hn | reflexivity].
Qed.

Lemma colorless_len_plain_witness :
  colorless_len "ACGTNacgt"
  = inr (UnableToDetermineLength 9 5 "ACGTNacgt").
Proof.
  destruct (colorless_len_plain "ACGTNacgt" eq_refl eq_refl) as [_ H].
  exact (proj1 (H eq_refl)).
Defined.

(** ** The check on [--max-quality] *)

(** X13. The check at the start of [start] accepts exactly the strings of
    one character from ['!'] to ['~']; with any other value the run prints
    nothing, reads no input and ends in [die] with the value given. *)
Theorem max_quality_check {S : Type} {A : AnsiState S} (s : string) :
  (bad_max_quality s = false
   <-> exists c, s = String c EmptyString /\ in_range "!" "~" c)
  /\ (forall get_columns args input,
         Args.max_quality args = s -> bad_max_quality s = true ->
         start get_columns args input
         = {| stdout := []; calls := []; exit := Died (BadMaxQuality s) |}).
Proof.
  split.
  - unfold in_range, Py.ord.
    change (N_of_ascii "!") with 33%N. change (N_of_ascii "~") with 126%N.
    destruct s as [|c [|d r]].
    + split; [discriminate | intros [c [H _]]; discriminate H].
    + unfold bad_max_quality, String.ltb. cbn [String.length Nat.eqb negb orb].
      cbn [String.compare]. unfold Ascii.compare.
      change (N_of_ascii "!") with 33%N. change (N_of_ascii "~") with 126%N.
      destruct (N.compare_spec (N_of_ascii c) 33),
               (N.compare_spec 126 (N_of_ascii c));
        cbn; (split;
              [ first [ discriminate
                      | intros _; exists c; split; [reflexivity | lia] ]
              | first [ reflexivity
                      | intros [c' [[= <-] Hr]]; lia ] ]).
    + split; [discriminate | intros [c' [H _]]; discriminate H].
  - intros get_columns args input <- Hbad. unfold start. now rewrite Hbad.
Qed.

(** ** [colorize_quality] on whole lines *)

(** [ANSIRE] removes each colour code of the script whole. *)
Lemma strip_color_code (b s : string) :
  In b (COLOR_END :: COLOR_BUCKETS) ->
  sub_ansire 0 (b ++ s) = sub_ansire 0 s.
Proof.
  intros H. cbn in H.
  repeat (destruct H as [<- | H]; [reflexivity |]). destruct H.
Qed.

Lemma sub_ansire_keep (c : ascii) (s : string) :
  Ascii.eqb c ESC = false -> sub_ansire 0 (String c s) = String c (sub_ansire 0 s).
Proof.
  intros H. cbn [sub_ansire]. now rewrite (ansire_group_plain c s H).
Qed.

Lemma quality_char_not_escape (c : ascii) :
  in_range "!" "~" c -> Ascii.eqb c ESC = false.
Proof.
  intros [Hlo _]. destruct (Ascii.eqb_spec c ESC) as [-> |]; [| reflexivity].
  vm_compute in Hlo. now destruct Hlo.
Qed.

Lemma all_quality_cons (c : ascii) (r : string) :
  all_quality (String c r) = true <->
  in_range "!" "~" c /\ all_quality r = true.
Proof.
  cbn [all_quality]. unfold in_range.
  rewrite !andb_true_iff, !Z.leb_le. tauto.
Qed.

Lemma painted_strip (m c : ascii) (s : string) :
  in_range "!" "~" c ->
  sub_ansire 0 (painted m c ++ s) = String c (sub_ansire 0 s).
Proof.
  intros Hc. unfold painted.
  destruct (color_bucket_exists _ (spec_bucket_bounds c m)) as [b [Hb _]].
  rewrite (nth_error_nth _ _ _ Hb), !append_assoc.
  rewrite strip_color_code by (right; exact (nth_error_In _ _ Hb)).
  cbn [append]. rewrite (sub_ansire_keep _ _ (quality_char_not_escape c Hc)).
  now rewrite strip_color_code by now left.
Qed.

(** The loop of [colorize_quality] paints the characters one by one. *)
Lemma colorize_chars_painted (line : string) (m : ascii) (todo : string) :
  Py.ord "!" < Py.ord m <= Py.ord "~" -> all_quality todo = true ->
  colorize_chars line todo (String m EmptyString)
  = Ok (Py.join (map (painted m) (list_ascii_of_string todo))).
Proof.
  intros Hm. induction todo as [|c rest IH]; [reflexivity |].
  intros Hq. apply all_quality_cons in Hq as [Hc Hrest].
  cbn [colorize_chars list_ascii_of_string map].
  destruct Hc as [Hlo Hhi].
  rewrite (proj2 (Z.ltb_ge _ _) Hlo), (proj2 (Z.ltb_ge _ _) Hhi). cbn [orb].
  rewrite (bucket_of_spec c m (conj Hlo Hhi) Hm). cbn [bind].
  destruct (color_bucket_exists _ (spec_bucket_bounds c m)) as [b [Hb Hi]].
  rewrite Hi, (IH Hrest). cbn [bind].
  rewrite join_cons. unfold painted.
  now rewrite (nth_error_nth _ _ _ Hb), !append_assoc.
Qed.

Lemma strip_painted (m : ascii) (s : string) :
  all_quality s = true ->
  sub_ansire 0 (Py.join (map (painted m) (list_ascii_of_string s))) = s.
Proof.
  induction s as [|c r IH]; [reflexivity |].
  intros Hq. apply all_quality_cons in Hq as [Hc Hr].
  cbn [list_ascii_of_string map]. rewrite join_cons, (painted_strip _ _ _ Hc).
  now rewrite (IH Hr).
Qed.

(** X3. For a line of quality characters and a maximum above ['!'] and at
    most ['~'], [colorize_quality] returns the characters of the line, each
    painted on its own (colour code of its bucket, character, end code), in
    order.  Removing the colour codes from the result gives the line back,
    so the painted line is as wide on screen as the line. *)
Theorem colorize_quality_visible (line : string) (m : ascii) :
  all_quality line = true -> Py.ord "!" < Py.ord m <= Py.ord "~" ->
  colorize_quality line (String m EmptyString)
  = Ok (Py.join (map (painted m) (list_ascii_of_string line)))
  /\ strip_color (Py.join (map (painted m) (list_ascii_of_string line)))
     = line
  /\ ansilen (Py.join (map (painted m) (list_ascii_of_string line)))
     = String.length line.
Proof.
  intros Hq Hm. split; [now apply colorize_chars_painted |].
  unfold ansilen, strip_color. now rewrite (strip_painted m line Hq).
Qed.

Lemma colorize_quality_visible_witness :
  colorize_quality "!5D" "D"
  = Ok (String ESC "[1;30m!" ++ COLOR_END ++ String ESC "[37m5" ++ COLOR_END
        ++ String ESC "[36mD" ++ COLOR_END).
Proof.
  destruct (colorize_quality_visible "!5D" "D") as [H _];
    [reflexivity | split; [reflexivity | discriminate] | exact H].
Defined.

(** X4. A character outside ['!'..'~'] stops [colorize_quality] with the
    exception that names it and the whole line, once the quality characters
    before it have been painted. *)
Theorem colorize_quality_rejects (pre post : string) (c m : ascii) :
  all_quality pre = true -> ~ in_range "!" "~" c ->
  Py.ord "!" < Py.ord m <= Py.ord "~" ->
  colorize_quality (pre ++ String c post) (String m EmptyString)
  = Raise (ValueOutOfRange c (pre ++ String c post)).
Proof.
  intros Hq Hc Hm. unfold colorize_quality.
  generalize (pre ++ String c post) at 1 3. intros line.
  induction pre as [|d pre IH].
  - cbn [append colorize_chars].
    destruct ((Py.ord c <? Py.ord "!") || (Py.ord "~" <? Py.ord c)) eqn:E;
      [reflexivity |].
    apply orb_false_elim in E as [E1 E2]. apply Z.ltb_ge in E1, E2.
    now destruct Hc.
  - apply all_quality_cons in Hq as [[Hlo Hhi] Hpre].
    cbn [append colorize_chars].
    rewrite (proj2 (Z.ltb_ge _ _) Hlo), (proj2 (Z.ltb_ge _ _) Hhi). cbn [orb].
    rewrite (bucket_of_spec d m (conj Hlo Hhi) Hm). cbn [bind].
    destruct (color_bucket_exists _ (spec_bucket_bounds d m)) as [b [_ Hi]].
    rewrite Hi, (IH Hpre). reflexivity.
Qed.

Lemma colorize_quality_rejects_witness :
  colorize_quality "!! !" "D" = Raise (ValueOutOfRange " " "!! !").
Proof.
  apply (colorize_quality_rejects "!!" "!" " " "D" eq_refl).
  - intros [H _]. now apply H.
  - split; [reflexivity | discriminate].
Defined.

(** X5. Under a maximum [m], every quality character at or above [m] falls
    in the last bucket and is painted cyan, and ['!'] falls in the first
    bucket and is painted bold black. *)
Theorem colorize_extremes (c m : ascii) :
  in_range "!" "~" c -> Py.ord "!" < Py.ord m <= Py.ord "~" ->
  (Py.ord m <= Py.ord c ->
   colorize_quality (String c EmptyString) (String m EmptyString)
   = Ok (String ESC "[36m" ++ String c EmptyString ++ COLOR_END))
  /\ colorize_quality "!" (String m EmptyString)
     = Ok (String ESC "[1;30m" ++ "!" ++ COLOR_END).
Proof.
  intros Hc Hm. unfold colorize_quality. split.
  - intros Hle.
    rewrite (colorize_chars_painted _ m _ Hm)
      by (apply all_quality_cons; now split).
    cbn [list_ascii_of_string map]. rewrite join_cons. cbn [Py.join String.concat].
    rewrite append_nil_r. unfold painted.
    assert (spec_bucket c m = 7) as ->; [| reflexivity].
    unfold spec_bucket.
    assert (8 <= 8 * (Py.ord c - Py.ord "!") / (Py.ord m - Py.ord "!"))
      by (apply Z.div_le_lower_bound; lia).
    lia.
  - rewrite (colorize_chars_painted _ m _ Hm) by reflexivity.
    cbn [list_ascii_of_string map]. rewrite join_cons. cbn [Py.join String.concat].
    rewrite append_nil_r. unfold painted.
    assert (spec_bucket "!" m = 0) as ->; [| reflexivity].
    unfold spec_bucket. change (Py.ord "!" - Py.ord "!") with 0.
    rewrite Z.mul_0_r, Z.div_0_l; lia.
Qed.

Lemma colorize_extremes_witness :
  colorize_quality "I" "D" = Ok (String ESC "[36m" ++ "I" ++ COLOR_END).
Proof.
  refine (proj1 (colorize_extremes "I" "D" _ _) _).
  - split; discriminate.
  - split; [reflexivity | discriminate].
  - discriminate.
Defined.

(** ** The segments [wrap] cuts *)

Lemma width_of_snoc (strip_ansi : bool) (line : string) (c : ascii) :
  (width_of strip_ansi (line ++ String c EmptyString)
   <= Datatypes.S (width_of strip_ansi line))%nat.
Proof.
  destruct strip_ansi; cbn [width_of].
  - rewrite ansistrip_append, length_append. cbn.
    destruct (is_upper c); cbn; lia.
  - rewrite length_append. cbn. lia.
Qed.

Lemma wrap_scan_step (strip_ansi : bool) (columns : option Z) (c : ascii)
    (rest line : string) (lines : list string) :
  wrap_scan strip_ansi columns (String c rest) line lines
  = if at_width (width_of strip_ansi (line ++ String c EmptyString)) columns
    then wrap_scan strip_ansi columns rest EmptyString
           (lines ++ [(line ++ String c EmptyString)%string])%list
    else wrap_scan strip_ansi columns rest
           (line ++ String c EmptyString) lines.
Proof. now destruct strip_ansi. Qed.

(** The scan closes a line exactly when its width reaches [w]. *)
Lemma wrap_scan_cut (strip_ansi : bool) (w : Z) (text : string) :
  0 < w ->
  forall line lines,
    Forall (fun s => Z.of_nat (width_of strip_ansi s) = w) lines ->
    Z.of_nat (width_of strip_ansi line) < w ->
    Forall (fun s => Z.of_nat (width_of strip_ansi s) = w)
           (snd (wrap_scan strip_ansi (Some w) text line lines))
    /\ Z.of_nat (width_of strip_ansi
                   (fst (wrap_scan strip_ansi (Some w) text line lines))) < w.
Proof.
  intros Hw. induction text as [|c rest IH]; intros line lines Hls Hl;
    [now split |].
  rewrite wrap_scan_step. cbn [at_width].
  pose proof (width_of_snoc strip_ansi line c) as Hs.
  destruct (Z.eqb_spec
              (Z.of_nat (width_of strip_ansi (line ++ String c EmptyString)))
              w) as [E | E].
  - apply IH.
    + apply Forall_app. split; [exact Hls | now constructor].
    + now destruct strip_ansi.
  - apply IH; [exact Hls | lia].
Qed.

Lemma wrap_lines_cut (strip_ansi : bool) (w : Z) (text : string) :
  0 < w -> cut_at strip_ansi w (wrap_lines text strip_ansi (Some w)).
Proof.
  intros Hw. unfold wrap_lines, cut_at.
  destruct (wrap_scan_cut strip_ansi w text Hw EmptyString [])
    as [Hfull Hlast]; [constructor | now destruct strip_ansi |].
  destruct (wrap_scan strip_ansi (Some w) text EmptyString []) as [line lines].
  cbn [fst snd] in Hfull, Hlast. destruct line as [|c line]; cbn [Py.nonempty].
  - exists lines, []. rewrite app_nil_r. auto.
  - exists lines, [String c line]. repeat split; try assumption.
    right. exists (String c line). repeat split; [discriminate | exact Hlast].
Qed.

Lemma length_join_full (w : Z) (full : list string) :
  Forall (fun s => Z.of_nat (String.length s) = w) full ->
  Z.of_nat (String.length (Py.join full)) = w * Z.of_nat (List.length full).
Proof.
  induction 1 as [|s full Hs _ IH]; [cbn; lia |].
  rewrite join_cons, length_append. cbn [List.length]. lia.
Qed.

(** X6. At a positive width [w], [wrap] in raw count mode cuts the text
    into [len(text) // w] segments of exactly [w] characters followed, when
    the length of the text is no multiple of [w], by one more segment of
    [len(text) % w] characters, and by nothing otherwise; the segments
    spell the text. *)
Theorem wrap_raw_segments {S : Type} {A : AnsiState S} (text : string)
    (w : Z) :
  0 < w ->
  let n := Z.of_nat (String.length text) in
  exists full rest,
    wrap text false (Some w) = (full ++ rest)%list
    /\ Py.join (full ++ rest) = text
    /\ Forall (fun s => Z.of_nat (String.length s) = w) full
    /\ Z.of_nat (List.length full) = n / w
    /\ ((n mod w = 0 /\ rest = [])
        \/ (0 < n mod w
            /\ exists l, rest = [l] /\ Z.of_nat (String.length l) = n mod w)).
Proof.
  intros Hw n. unfold wrap.
  destruct (wrap_lines_cut false w text Hw) as [full [rest [E [Hfull Hrest]]]].
  cbn [width_of] in Hfull, Hrest.
  exists full, rest.
  pose proof (wrap_lines_join false (Some w) text) as Hj.
  rewrite E in Hj.
  split; [exact E |]. split; [exact Hj |]. split; [exact Hfull |].
  rewrite join_app in Hj. apply (f_equal String.length) in Hj.
  rewrite length_append in Hj. fold n in Hj.
  pose proof (length_join_full w full Hfull) as Hf.
  assert (n = w * Z.of_nat (List.length full)
              + Z.of_nat (String.length (Py.join rest))) as Hn by lia.
  assert (0 <= Z.of_nat (String.length (Py.join rest)) < w) as Hr.
  { destruct Hrest as [-> | [l [-> [_ Hl]]]]; cbn; lia. }
  pose proof (Z.div_mod_unique w (Z.of_nat (List.length full)) (n / w)
                (Z.of_nat (String.length (Py.join rest))) (n mod w)
                (or_introl Hr) (or_introl (Z.mod_pos_bound n w Hw))) as Hu.
  destruct Hu as [Hq Hm];
    [rewrite <- Hn; apply Z.div_mod; lia |].
  split; [exact Hq |].
  destruct Hrest as [-> | [l [-> [Hne Hl]]]].
  - left. split; [now rewrite <- Hm | reflexivity].
  - right. change (Py.join [l]) with l in Hm.
    split; [| exists l; split; [reflexivity | exact Hm]].
    rewrite <- Hm. destruct l; [now destruct Hne | cbn; lia].
Qed.

Lemma wrap_raw_segments_witness :
  wrap (A := SgrState) "ACGTACGTAC" false (Some 4) = ["ACGT"; "ACGT"; "AC"].
Proof.
  destruct (wrap_raw_segments (A := SgrState) "ACGTACGTAC" 4 eq_refl)
    as [full [rest [E _]]].
  rewrite E. vm_compute in E. now rewrite E.
Defined.

(** X8. At a positive width [w], on a text without the escape character
    (and with a colour state that reports no colour when fresh), [wrap] in
    content count mode raises no exception and cuts segments that each hold
    exactly [w] uppercase letters, followed by at most one segment, not
    empty, with fewer; the segments spell the text. *)
Theorem wrap_content_segments {S : Type} {A : AnsiState S} (text : string)
    (w : Z) :
  0 < w -> code fresh = EmptyString -> no_escape text = true ->
  exists full rest,
    wrap text true (Some w) = Ok (full ++ rest)%list
    /\ Py.join (full ++ rest) = text
    /\ Forall (fun s => Z.of_nat (String.length (ansistrip s)) = w) full
    /\ (rest = []
        \/ exists l, rest = [l] /\ l <> EmptyString
                     /\ Z.of_nat (String.length (ansistrip l)) < w).
Proof.
  intros Hw Hc Hne. unfold wrap.
  rewrite (ansi_terminate_lines_plain _ Hc)
    by (now apply (wrap_lines_forallb no_escape);
        [| apply no_escape_append |]).
  destruct (wrap_lines_cut true w text Hw) as [full [rest [E [Hfull Hrest]]]].
  exists full, rest.
  pose proof (wrap_lines_join true (Some w) text) as Hj. rewrite E in Hj |- *.
  split; [reflexivity |]. split; [exact Hj |]. now split.
Qed.

Lemma wrap_content_segments_witness :
  wrap (A := SgrState) "ACgtACGTA-C" true (Some 4) = Ok ["ACgtAC"; "GTA-C"].
Proof.
  destruct (wrap_content_segments (A := SgrState) "ACgtACGTA-C" 4
              eq_refl eq_refl eq_refl) as [full [rest [E _]]].
  rewrite E. vm_compute in E. injection E as E. f_equal. symmetry. exact E.
Defined.

Lemma wrap_scan_never (strip_ansi : bool) (w : Z) (text : string) :
  w < 0 \/ (w = 0 /\ strip_ansi = false) ->
  forall line lines,
    wrap_scan strip_ansi (Some w) text line lines = (line ++ text, lines).
Proof.
  intros Hw. induction text as [|c rest IH]; intros line lines.
  - cbn. now rewrite append_nil_r.
  - rewrite wrap_scan_step. cbn [at_width].
    destruct (Z.eqb_spec
                (Z.of_nat (width_of strip_ansi (line ++ String c EmptyString)))
                w) as [E | _].
    + exfalso. destruct Hw as [Hw | [-> ->]]; [lia |].
      cbn [width_of] in E. rewrite length_append in E. cbn in E. lia.
    + rewrite IH, append_assoc. reflexivity.
Qed.

(** X7. With a negative number of columns no segment is ever closed: [wrap]
    returns the whole text as a single segment (no segment for an empty
    text), handed to [ansi_terminate_lines] in content count mode.  In raw
    count mode the same holds for zero columns. *)
Theorem wrap_nonpositive_columns {S : Type} {A : AnsiState S} (text : string)
    (w : Z) :
  (w <= 0 ->
   wrap text false (Some w) = if Py.nonempty text then [text] else [])
  /\ (w < 0 ->
      wrap text true (Some w)
      = ansi_terminate_lines (if Py.nonempty text then [text] else [])).
Proof.
  unfold wrap, wrap_lines. split; intros Hw.
  - rewrite wrap_scan_never by lia. cbn [append]. now destruct text.
  - rewrite wrap_scan_never by lia. cbn [append]. now destruct text.
Qed.

(** ** What [print_fastq] prints *)

Lemma combine_same_length {X Y : Type} (xs : list X) :
  forall ys : list Y,
    List.length xs = List.length ys ->
    map fst (combine xs ys) = xs /\ map snd (combine xs ys) = ys.
Proof.
  induction xs as [|x xs IH]; intros [|y ys] H; try discriminate H;
    [now split |].
  injection H as H. destruct (IH ys H) as [H1 H2]. cbn. now rewrite H1, H2.
Qed.

Lemma combine_map_eq {X Y Z : Type} (f : X -> Z) (g : Y -> Z) (xs : list X) :
  forall ys : list Y,
    map f xs = map g ys ->
    forall x y, In (x, y) (combine xs ys) -> f x = g y.
Proof.
  induction xs as [|x xs IH]; intros [|y ys] H a b Hin; try destruct Hin.
  - injection H as Hh _. congruence.
  - injection H as _ Ht. now apply (IH ys Ht).
Qed.

Lemma all_quality_append (a b : string) :
  all_quality (a ++ b) = all_quality a && all_quality b.
Proof.
  induction a as [|c a IH]; [reflexivity |]. cbn [append all_quality].
  now rewrite IH, andb_assoc.
Qed.

Section Rendering.
Context {S : Type} {A : AnsiState S}.

(** X9. A record with an uppercase sequence and as many quality characters
    is rendered whole when nothing is coloured: the header, then for each
    pair of segments the sequence segment and the quality segment (and a
    blank line with [--skip-lines]), then the separator, and no exception.
    The sequence segments printed spell the sequence and the quality
    segments the quality: nothing is dropped. *)
Theorem print_fastq_complete (args : Args.t) (c : Call.t) :
  code fresh = EmptyString ->
  Args.colorize_quality args = false ->
  all_upper (Call.sequence c) = true ->
  all_quality (Call.quality c) = true ->
  String.length (Call.sequence c) = String.length (Call.quality c) ->
  let pairs := combine (wrap (Call.sequence c) false (Args.columns args))
                       (wrap (Call.quality c) false (Args.columns args)) in
  print_fastq args c
  = ((Call.at_line c :: flat_map (pair_lines args) pairs
        ++ [Call.plus_line c])%list, None)
  /\ Py.join (map fst pairs) = Call.sequence c
  /\ Py.join (map snd pairs) = Call.quality c.
Proof.
  intros Hc Hcol Hup Hq Hlen pairs. subst pairs. unfold wrap.
  pose proof (wrap_lines_lengths (Args.columns args) _ _ Hlen) as Hmap.
  assert (forallb no_escape
            (wrap_lines (Call.sequence c) false (Args.columns args)) = true)
    as Hs
    by (apply (wrap_lines_forallb no_escape);
        [reflexivity | apply no_escape_append | now apply upper_no_escape]).
  assert (forallb no_escape
            (wrap_lines (Call.quality c) false (Args.columns args)) = true)
    as Hqs
    by (apply (wrap_lines_forallb no_escape);
        [reflexivity | apply no_escape_append | now apply quality_no_escape]).
  split.
  - unfold print_fastq. rewrite (wrap_upper _ _ Hc Hup). unfold wrap.
    rewrite print_pairs_agree; [reflexivity | exact Hcol |].
    apply (combine_map_eq ansilen ansilen).
    now rewrite !map_ansilen_plain.
  - destruct (combine_same_length
                (wrap_lines (Call.sequence c) false (Args.columns args))
                (wrap_lines (Call.quality c) false (Args.columns args)))
      as [H1 H2].
    + rewrite <- (length_map String.length), Hmap. apply length_map.
    + rewrite H1, H2, !wrap_lines_join. now split.
Qed.

Lemma print_pairs_colour (args : Args.t) (m : ascii)
    (pairs : list (string * string)) :
  Args.max_quality args = String m EmptyString ->
  Py.ord "!" < Py.ord m <= Py.ord "~" ->
  Forall (fun p => all_quality (snd p) = true) pairs ->
  snd (print_pairs (with_colour true args) pairs)
  = snd (print_pairs (with_colour false args) pairs)
  /\ map strip_color (fst (print_pairs (with_colour true args) pairs))
     = map strip_color (fst (print_pairs (with_colour false args) pairs)).
Proof.
  intros Hmq Hm. induction 1 as [|[s q] pairs Hq _ [IHe IHo]]; [now split |].
  cbn [snd] in Hq. cbn [print_pairs with_colour Args.colorize_quality
                         Args.max_quality Args.skip_lines].
  destruct (negb (Nat.eqb (ansilen s) (ansilen q))); [now split |].
  rewrite Hmq. unfold colorize_quality.
  rewrite (colorize_chars_painted _ m _ Hm Hq).
  destruct (print_pairs (with_colour true args) pairs) as [o1 e1].
  destruct (print_pairs (with_colour false args) pairs) as [o2 e2].
  cbn [fst snd] in IHe, IHo |- *. split; [exact IHe |].
  cbn [with_colour Args.skip_lines].
  rewrite !map_app. cbn [map]. rewrite IHo.
  assert (strip_color (Py.join (map (painted m) (list_ascii_of_string q)))
          = strip_color q) as ->; [| reflexivity].
  unfold strip_color.
  now rewrite (strip_painted m q Hq),
              (sub_ansire_plain q (quality_no_escape q Hq)).
Qed.

(** Without colouring, what the loop prints is made of the segments it is
    given. *)
Lemma print_pairs_plain_lines (args : Args.t)
    (pairs : list (string * string)) :
  Args.colorize_quality args = false ->
  Forall (fun p => no_escape (fst p) = true /\ no_escape (snd p) = true)
         pairs ->
  Forall (fun l => no_escape l = true) (fst (print_pairs args pairs)).
Proof.
  intros Hcol. induction 1 as [|[s q] pairs [Hs Hq] _ IH]; [constructor |].
  cbn [fst snd] in Hs, Hq. cbn [print_pairs]. rewrite Hcol.
  destruct (negb (Nat.eqb (ansilen s) (ansilen q)));
    [cbn [fst]; now repeat constructor |].
  destruct (print_pairs args pairs) as [out e]. cbn [fst] in IH |- *.
  constructor; [exact Hs |]. constructor; [exact Hq |].
  apply Forall_app. split; [| exact IH].
  destruct (Args.skip_lines args); now repeat constructor.
Qed.

Lemma map_strip_color_plain (lines : list string) :
  Forall (fun l => no_escape l = true) lines ->
  map strip_color lines = lines.
Proof.
  induction 1 as [|l lines Hl _ IH]; [reflexivity |].
  cbn [map]. unfold strip_color at 1. now rewrite (sub_ansire_plain l Hl), IH.
Qed.

(** X10. Colours change nothing but colours: for a record whose quality is
    made of quality characters and a maximum above ['!'] and at most ['~'],
    [print_fastq] with [--colorize-quality] ends the same way as without,
    and the two outputs are the same once the colour codes are removed from
    each line of both.  When the record itself holds no escape character
    (and a fresh colour state reports no colour), removing the colour codes
    from the coloured output gives the output without the option. *)
Theorem colour_preserves_text (args : Args.t) (c : Call.t) (m : ascii) :
  Args.max_quality args = String m EmptyString ->
  Py.ord "!" < Py.ord m <= Py.ord "~" ->
  all_quality (Call.quality c) = true ->
  snd (print_fastq (with_colour true args) c)
  = snd (print_fastq (with_colour false args) c)
  /\ map strip_color (fst (print_fastq (with_colour true args) c))
     = map strip_color (fst (print_fastq (with_colour false args) c))
  /\ (code fresh = EmptyString ->
      no_escape (Call.at_line c) = true ->
      no_escape (Call.sequence c) = true ->
      no_escape (Call.plus_line c) = true ->
      map strip_color (fst (print_fastq (with_colour true args) c))
      = fst (print_fastq (with_colour false args) c)).
Proof.
  intros Hmq Hm Hq.
  assert (forallb all_quality
            (wrap_lines (Call.quality c) false (Args.columns args)) = true)
    as Hqs
    by (apply (wrap_lines_forallb all_quality);
        [reflexivity | apply all_quality_append | exact Hq]).
  rewrite forallb_forall in Hqs.
  assert (snd (print_fastq (with_colour true args) c)
          = snd (print_fastq (with_colour false args) c)
          /\ map strip_color (fst (print_fastq (with_colour true args) c))
             = map strip_color (fst (print_fastq (with_colour false args) c)))
    as [He Ho].
  { unfold print_fastq. cbn [with_colour Args.columns].
    destruct (wrap (Call.sequence c) true (Args.columns args)) as [ss | e];
      [| now split].
    set (pairs := combine ss _).
    assert (Forall (fun p => all_quality (snd p) = true) pairs) as Hp.
    { apply Forall_forall. intros [s q] Hin. cbn [snd].
      apply in_combine_r in Hin. now apply Hqs. }
    destruct (print_pairs_colour args m pairs Hmq Hm Hp) as [He Ho].
    destruct (print_pairs (with_colour true args) pairs) as [o1 e1].
    destruct (print_pairs (with_colour false args) pairs) as [o2 e2].
    cbn [fst snd] in He, Ho. subst e2.
    destruct e1; cbn [fst snd map]; rewrite ?map_app, Ho; now split. }
  split; [exact He |]. split; [exact Ho |].
  intros Hc Hat Hseq Hplus. rewrite Ho. apply map_strip_color_plain.
  unfold print_fastq. cbn [with_colour Args.columns].
  assert (forallb no_escape
            (wrap_lines (Call.sequence c) true (Args.columns args)) = true)
    as Hss
    by (apply (wrap_lines_forallb no_escape);
        [reflexivity | apply no_escape_append | exact Hseq]).
  unfold wrap at 1. rewrite (ansi_terminate_lines_plain _ Hc Hss).
  rewrite forallb_forall in Hss.
  set (pairs := combine _ _).
  assert (Forall (fun l => no_escape l = true)
            (fst (print_pairs (with_colour false args) pairs))) as Hout.
  { apply print_pairs_plain_lines; [reflexivity |].
    apply Forall_forall. intros [s q] Hin. cbn [fst snd]. split.
    - apply in_combine_l in Hin. now apply Hss.
    - apply in_combine_r in Hin. now apply quality_no_escape, Hqs. }
  destruct (print_pairs (with_colour false args) pairs) as [out [e|]];
    cbn [fst] in Hout |- *.
  - now constructor.
  - constructor; [exact Hat |]. apply Forall_app. split; [exact Hout |].
    now repeat constructor.
Qed.

End Rendering.

Lemma print_fastq_complete_witness :
  print_fastq (A := SgrState) (plain_args 4)
    {| Call.at_line := "@r1"; Call.sequence := "ACGTAC";
       Call.plus_line := "+"; Call.quality := "!!!!##" |}
  = (["@r1"; "ACGT"; "!!!!"; "AC"; "##"; "+"], None).
Proof.
  destruct (print_fastq_complete (A := SgrState) (plain_args 4)
              {| Call.at_line := "@r1"; Call.sequence := "ACGTAC";
                 Call.plus_line := "+"; Call.quality := "!!!!##" |}
              eq_refl eq_refl eq_refl eq_refl eq_refl) as [H _].
  exact H.
Defined.

Lemma colour_preserves_text_witness :
  map strip_color
    (fst (print_fastq (A := SgrState) (with_colour true (plain_args 4))
            {| Call.at_line := "@r1"; Call.sequence := "ACGTAC";
               Call.plus_line := "+"; Call.quality := "!5D~II" |}))
  = ["@r1"; "ACGT"; "!5D~"; "AC"; "II"; "+"].
Proof.
  destruct (colour_preserves_text (A := SgrState) (plain_args 4)
              {| Call.at_line := "@r1"; Call.sequence := "ACGTAC";
                 Call.plus_line := "+"; Call.quality := "!5D~II" |} "D"
              eq_refl) as [_ [_ H]];
    [split; [reflexivity | discriminate] | reflexivity | ].
  rewrite (H eq_refl eq_refl eq_refl eq_refl). reflexivity.
Defined.

(** ** Whole inputs *)

Lemma upper_not_plus (s : string) :
  all_upper s = true -> Py.startswith s "+" = false.
Proof.
  destruct s as [|c r]; [reflexivity |]. cbn [all_upper]. intros H.
  apply andb_prop in H as [Hc _]. unfold Py.startswith. cbn [String.prefix].
  destruct (ascii_dec "+" c) as [<- |]; [discriminate Hc | reflexivity].
Qed.

Lemma colorless_len_upper (s : string) :
  all_upper s = true -> colorless_len s = inl (String.length s).
Proof.
  intros H. unfold colorless_len.
  rewrite (ansilen_plain _ (upper_no_escape _ H)), (ansistrip_upper _ H).
  now rewrite Nat.eqb_refl.
Qed.

Section Inputs.
Context {S : Type} {A : AnsiState S}.

Lemma body_more_quality (args : Args.t) (lineno : nat) (st : St.t)
    (raw : string) :
  awaiting_quality st = true ->
  (St.quality_len st + String.length (Py.strip raw) < St.sequence_len st)%nat ->
  body args lineno st raw = silent (Next (St.push_quality (Py.strip raw) st)).
Proof.
  intros Hq Hlt.
  destruct (body_feeds args lineno st raw);
    unfold awaiting_quality, awaiting_sequence, in_progress in *;
    try reflexivity;
    try (destruct (Py.truthy (St.at_line st)),
           (Py.truthy (St.plus_line st)); discriminate);
    lia.
Qed.

(** The loop body does not look at the line number except to report it. *)
Lemma body_shift (args : Args.t) (k lineno : nat) (st : St.t) (raw : string) :
  printed (body args (k + lineno) st raw) = printed (body args lineno st raw)
  /\ handed (body args (k + lineno) st raw) = handed (body args lineno st raw)
  /\ after (body args (k + lineno) st raw)
     = match after (body args lineno st raw) with
       | Next st' => Next st'
       | Halt o => Halt (shift_outcome k o)
       end.
Proof.
  unfold body.
  destruct (St.at_line st) as [[|c r]|];
    try (destruct (negb (Py.startswith (Py.strip raw) "@")); now repeat split).
  destruct (St.plus_line st) as [[|d q]|];
    try (destruct (Py.startswith (Py.strip raw) "+"); [now repeat split |];
         unfold colorless_len;
         destruct (negb (Nat.eqb (ansilen (Py.strip raw))
                           (String.length (ansistrip (Py.strip raw)))));
         now repeat split).
  cbn zeta.
  match goal with |- context [Nat.eqb ?a ?b] => destruct (Nat.eqb a b) end.
  - match goal with
    | |- context [print_fastq args ?c] =>
        destruct (print_fastq args c) as [out [e|]]
    end; now repeat split.
  - match goal with |- context [Nat.ltb ?a ?b] => destruct (Nat.ltb a b) end;
      now repeat split.
Qed.

Lemma loop_shift (args : Args.t) (k : nat) (input : list string) :
  forall lineno st,
    loop args (k + lineno) st input = shift_run k (loop args lineno st input).
Proof.
  induction input as [|raw rest IH]; intros lineno st; [reflexivity |].
  cbn [loop]. destruct (body_shift args k lineno st raw) as [-> [-> ->]].
  destruct (after (body args lineno st raw)) as [st' | o]; [| reflexivity].
  rewrite <- Nat.add_succ_r, IH. reflexivity.
Qed.

(** X11. When an input ends between two records, a second input read after
    it is handled as it would be alone: the output and the records of the
    whole are those of the first followed by those of the second, and the
    run ends as the second does, the line numbers in its messages counting
    the lines of the first. *)
Theorem inputs_concatenate (get_columns : Z) (args : Args.t)
    (xs ys : list string) :
  exit (start get_columns args xs) = Finished St.init ->
  start get_columns args (xs ++ ys)
  = then_run (start get_columns args xs)
             (shift_run (List.length xs) (start get_columns args ys)).
Proof.
  unfold start. destruct (bad_max_quality _); [discriminate |].
  intros Hx. rewrite loop_app, Hx.
  now rewrite <- (loop_shift _ (List.length xs) ys 0 St.init), Nat.add_0_r.
Qed.

(** X14. A line that does not start with [@] where a header is expected, a
    blank line between or after the records for one, ends the run in [die]
    with the number of the line, counted from 0, and the stripped line; what
    the records before it printed stays printed. *)
Theorem stray_line_is_fatal (get_columns : Z) (args : Args.t)
    (pre : list string) (raw : string) (rest : list string) :
  exit (start get_columns args pre) = Finished St.init ->
  Py.startswith (Py.strip raw) "@" = false ->
  start get_columns args (pre ++ raw :: rest)
  = {| stdout := stdout (start get_columns args pre);
       calls := calls (start get_columns args pre);
       exit := Died (BadValue (List.length pre) (Py.strip raw)) |}.
Proof.
  unfold start. destruct (bad_max_quality _); [discriminate |].
  intros Hx Hraw. rewrite loop_app, Hx. cbn [loop].
  rewrite (body_bad_header _ _ St.init raw eq_refl Hraw).
  unfold then_run. cbn. now rewrite !app_nil_r.
Qed.

(** X12. When the input ends in the middle of a record, the run still ends
    normally and the unfinished record leaves no trace: output and records
    are those of the input without the lines of the unfinished record. *)
Theorem truncated_record_dropped (get_columns : Z) (args : Args.t)
    (input : list string) (st : St.t) :
  exit (start get_columns args input) = Finished st ->
  in_progress st = true ->
  exists pre1 pre2,
    input = (pre1 ++ pre2)%list /\ pre2 <> []
    /\ start get_columns args pre1
       = {| stdout := stdout (start get_columns args input);
            calls := calls (start get_columns args input);
            exit := Finished St.init |}.
Proof.
  unfold start. destruct (bad_max_quality _); [discriminate |].
  intros Hx Hst.
  destruct (in_progress_silent _ input _ _ st
              (eq_trans (run_eta _) (f_equal _ Hx)) Hst)
    as [pre1 [pre2 [E [Hne [H1 _]]]]].
  now exists pre1, pre2.
Qed.

End Inputs.

Lemma inputs_concatenate_witness :
  start (A := SgrState) 80 (plain_args 4)
        (fed ["@r1"; "ACGT"; "+"; "!!!!"] ++ fed ["@r2"; "AC"; "+"; "!!!"])
  = {| stdout := ["@r1"; "ACGT"; "!!!!"; "+"];
       calls := [ {| Call.at_line := "@r1"; Call.sequence := "ACGT";
                     Call.plus_line := "+"; Call.quality := "!!!!" |} ];
       exit := Died (QualityLonger 7 3 2) |}.
Proof.
  now rewrite (inputs_concatenate (A := SgrState) 80 (plain_args 4)
                 (fed ["@r1"; "ACGT"; "+"; "!!!!"])
                 (fed ["@r2"; "AC"; "+"; "!!!"]) eq_refl).
Defined.

Lemma stray_line_is_fatal_witness :
  start (A := SgrState) 80 (plain_args 4)
        (fed ["@r1"; "ACGT"; "+"; "!!!!"] ++ String LF "" :: fed ["@r2"])
  = {| stdout := ["@r1"; "ACGT"; "!!!!"; "+"];
       calls := [ {| Call.at_line := "@r1"; Call.sequence := "ACGT";
                     Call.plus_line := "+"; Call.quality := "!!!!" |} ];
       exit := Died (BadValue 4 "") |}.
Proof.
  now rewrite (stray_line_is_fatal (A := SgrState) 80 (plain_args 4)
                 (fed ["@r1"; "ACGT"; "+"; "!!!!"]) (String LF "")
                 (fed ["@r2"]) eq_refl eq_refl).
Defined.

Lemma truncated_record_dropped_witness :
  exists pre1 pre2,
    fed ["@r1"; "ACGT"; "+"; "!!!!"; "@r2"; "ACGT"; "+"; "!!"]
    = (pre1 ++ pre2)%list /\ pre2 <> []
    /\ start (A := SgrState) 80 (plain_args 4) pre1
       = {| stdout := ["@r1"; "ACGT"; "!!!!"; "+"];
            calls := [ {| Call.at_line := "@r1"; Call.sequence := "ACGT";
                          Call.plus_line := "+"; Call.quality := "!!!!" |} ];
            exit := Finished St.init |}.
Proof.
  exact (truncated_record_dropped (A := SgrState) 80 (plain_args 4)
           (fed ["@r1"; "ACGT"; "+"; "!!!!"; "@r2"; "ACGT"; "+"; "!!"])
           _ eq_refl eq_refl).
Defined.

(** ** Records spread over several lines *)

Section Assembly.
Context {S : Type} {A : AnsiState S}.

(** Uppercase lines read while a sequence is awaited all go to the sequence
    buffer. *)
Lemma loop_sequences (args : Args.t) (seqs rest : list string) :
  Forall (fun r => all_upper (Py.strip r) = true) seqs ->
  forall lineno st,
    awaiting_sequence st = true ->
    loop args lineno st (seqs ++ rest)%list
    = loop args (lineno + List.length seqs)
        {| St.at_line := St.at_line st; St.plus_line := St.plus_line st;
           St.sequence := (St.sequence st ++ map Py.strip seqs)%list;
           St.quality := St.quality st;
           St.quality_len := St.quality_len st;
           St.sequence_len :=
             (St.sequence_len st
              + String.length (Py.join (map Py.strip seqs)))%nat |}
        rest.
Proof.
  induction 1 as [|r seqs Hr _ IH]; intros lineno st Hst.
  - cbn [app map List.length]. rewrite Nat.add_0_r, app_nil_r.
    cbn. rewrite Nat.add_0_r. now destruct st.
  - rewrite <- app_comm_cons.
    rewrite (loop_silent _ _ _ _ _ _
               (body_sequence args lineno st r _ Hst
                  (upper_not_plus _ Hr) (colorless_len_upper _ Hr))).
    rewrite IH by exact Hst.
    cbn [St.push_sequence St.at_line St.plus_line St.sequence St.quality
         St.quality_len St.sequence_len map List.length].
    rewrite join_cons, length_append, <- app_assoc, Nat.add_succ_r.
    cbn [app]. now rewrite Nat.add_assoc.
Qed.

(** Quality lines that leave the record short all go to the quality
    buffer. *)
Lemma loop_qualities (args : Args.t) (quals rest : list string) :
  forall lineno st,
    awaiting_quality st = true ->
    quals = []
    \/ (St.quality_len st + String.length (Py.join (map Py.strip quals))
        < St.sequence_len st)%nat ->
    loop args lineno st (quals ++ rest)%list
    = loop args (lineno + List.length quals)
        {| St.at_line := St.at_line st; St.plus_line := St.plus_line st;
           St.sequence := St.sequence st;
           St.quality := (St.quality st ++ map Py.strip quals)%list;
           St.quality_len :=
             (St.quality_len st
              + String.length (Py.join (map Py.strip quals)))%nat;
           St.sequence_len := St.sequence_len st |}
        rest.
Proof.
  induction quals as [|r quals IH]; intros lineno st Hst Hshort.
  - cbn [app map List.length]. rewrite Nat.add_0_r, app_nil_r.
    cbn. rewrite Nat.add_0_r. now destruct st.
  - destruct Hshort as [Hnil | Hshort]; [discriminate Hnil |].
    cbn [map] in Hshort. rewrite join_cons, length_append in Hshort.
    rewrite <- app_comm_cons.
    rewrite (loop_silent _ _ _ _ _ _
               (body_more_quality args lineno st r Hst ltac:(lia))).
    rewrite IH; [| exact Hst | right; cbn; lia].
    cbn [St.push_quality St.at_line St.plus_line St.sequence St.quality
         St.quality_len St.sequence_len map List.length].
    rewrite join_cons, length_append, <- app_assoc, Nat.add_succ_r.
    cbn [app]. now rewrite Nat.add_assoc.
Qed.

(** X15. A well-formed record is assembled however its sequence and its
    quality are spread over lines.  After a header line starting with [@],
    any number of uppercase sequence lines, a separator line starting with
    [+], and quality lines of which the last one brings the quality to the
    length of the sequence and no earlier one does, [print_fastq] is called
    once, with the stripped header, the sequence lines joined, the stripped
    separator and the quality lines joined; the run prints what that call
    prints and ends as it ends. *)
Theorem record_assembled (get_columns : Z) (args : Args.t)
    (header : string) (seqs : list string) (sep : string)
    (quals : list string) (last : string) :
  bad_max_quality (Args.max_quality args) = false ->
  Py.startswith (Py.strip header) "@" = true ->
  Forall (fun r => all_upper (Py.strip r) = true) seqs ->
  Py.startswith (Py.strip sep) "+" = true ->
  quals = []
  \/ (String.length (Py.join (map Py.strip quals))
      < String.length (Py.join (map Py.strip seqs)))%nat ->
  String.length (Py.join (map Py.strip (quals ++ [last])))
  = String.length (Py.join (map Py.strip seqs)) ->
  let c := record_from header seqs sep (quals ++ [last]) in
  let a := default_columns get_columns args in
  start get_columns args (header :: seqs ++ sep :: quals ++ [last])%list
  = {| stdout := fst (print_fastq a c);
       calls := [c];
       exit := match snd (print_fastq a c) with
               | None => Finished St.init
               | Some e => Raised e
               end |}.
Proof.
  intros Hmq Hh Hseqs Hsep Hshort Hlen c a. subst c. unfold start.
  rewrite Hmq. fold a.
  pose proof (truthy_startswith _ "@" eq_refl Hh) as Hat.
  pose proof (truthy_startswith _ "+" eq_refl Hsep) as Hplus.
  rewrite (loop_silent _ _ _ _ _ _ (body_header a 0 St.init header eq_refl Hh)).
  rewrite loop_sequences;
    [| exact Hseqs | apply andb_true_intro; split; [exact Hat | reflexivity]].
  cbn [St.set_at_line St.init St.at_line St.plus_line St.sequence St.quality
       St.quality_len St.sequence_len app Nat.add].
  match goal with
  | |- loop a ?n ?st (sep :: ?rest) = _ =>
      rewrite (loop_silent _ _ _ _ _ _
                 (body_separator a n st sep
                    (andb_true_intro (conj Hat eq_refl)) Hsep))
  end.
  rewrite loop_qualities;
    [| apply andb_true_intro; split; assumption | exact Hshort].
  cbn [St.set_plus_line St.at_line St.plus_line St.sequence St.quality
       St.quality_len St.sequence_len app Nat.add].
  rewrite map_app, join_app, length_append in Hlen. cbn [map] in Hlen.
  change (Py.join [Py.strip last]) with (Py.strip last) in Hlen.
  cbn [loop].
  match goal with
  | |- context [body a ?n ?st last] =>
      rewrite (body_complete a n st last
                 (andb_true_intro (conj Hat Hplus)) Hlen)
  end.
  cbn [printed handed after].
  assert (forall st,
             St.at_line st = Some (Py.strip header) ->
             St.plus_line st = Some (Py.strip sep) ->
             St.sequence st = map Py.strip seqs ->
             St.quality st = map Py.strip quals ->
             record_of (St.push_quality (Py.strip last) st)
             = record_from header seqs sep (quals ++ [last])) as Hrec.
  { intros st E1 E2 E3 E4. unfold record_of, record_from.
    cbn [St.push_quality St.at_line St.plus_line St.sequence St.quality].
    rewrite E1, E2, E3, E4, map_app. reflexivity. }
  rewrite Hrec by reflexivity.
  destruct (snd (print_fastq a _)); cbn; now rewrite ?app_nil_r.
Qed.

End Assembly.

Lemma record_assembled_witness :
  start (A := SgrState) 80 (plain_args 4)
        (fed ["@r1"; "ACG"; "TAC"; ""; "GT"; "+r1"; "!!!"; "#####"])
  = {| stdout := ["@r1"; "ACGT"; "!!!#"; "ACGT"; "####"; "+r1"];
       calls := [ {| Call.at_line := "@r1"; Call.sequence := "ACGTACGT";
                     Call.plus_line := "+r1"; Call.quality := "!!!#####" |} ];
       exit := Finished St.init |}.
Proof.
  assert (3 < 8)%nat as Hshort by lia.
  assert (Forall (fun r => all_upper (Py.strip r) = true)
            (fed ["ACG"; "TAC"; ""; "GT"])) as Hseqs
    by (repeat constructor).
  exact (record_assembled (A := SgrState) 80 (plain_args 4)
           ("@r1" ++ String LF "") (fed ["ACG"; "TAC"; ""; "GT"])
           ("+r1" ++ String LF "") (fed ["!!!"]) ("#####" ++ String LF "")
           eq_refl eq_refl Hseqs eq_refl (or_intror Hshort) eq_refl).
Defined.

(** ** What a run hands over and prints *)

Section Handed.
Context {S : Type} {A : AnsiState S}.

Lemma marked_init : marked St.init.
Proof. split; intros s H; discriminate H. Qed.

Lemma marked_record (line : string) (st : St.t) :
  marked st -> awaiting_quality st = true ->
  Py.startswith (Call.at_line (record_of (St.push_quality line st))) "@" = true
  /\ Py.startswith (Call.plus_line (record_of (St.push_quality line st))) "+"
     = true.
Proof.
  intros [Hat Hplus] Hq. unfold awaiting_quality in Hq.
  apply andb_prop in Hq as [H1 H2].
  destruct (truthy_inv _ H1) as [c [r E1]].
  destruct (truthy_inv _ H2) as [d [q E2]].
  unfold record_of. cbn [St.push_quality St.at_line St.plus_line
                         Call.at_line Call.plus_line].
  rewrite E1, E2. split; [now apply Hat | now apply Hplus].
Qed.

Lemma loop_handed (args : Args.t) (input : list string) :
  forall lineno st,
    counted st -> marked st ->
    stdout (loop args lineno st input)
    = flat_map (fun c => fst (print_fastq args c))
               (calls (loop args lineno st input))
    /\ forall c, In c (calls (loop args lineno st input)) ->
                 Py.startswith (Call.at_line c) "@" = true
                 /\ Py.startswith (Call.plus_line c) "+" = true
                 /\ String.length (ansistrip (Call.sequence c))
                    = String.length (Call.quality c).
Proof.
  induction input as [|raw rest IH]; intros lineno st Hc Hm;
    [split; [reflexivity | intros c []] |].
  cbn [loop].
  destruct (body_feeds args lineno st raw) as
    [ | _ Hp | _ Hp | | n _ _ Hn | out Hq Hlen Hpr | out e Hq Hlen Hpr | | ];
    cbn [silent printed handed after stdout calls app flat_map];
    try (split; [reflexivity | intros c []]).
  - apply IH; [exact Hc |]. destruct Hm as [H1 H2].
    split; cbn; [now intros s [= <-] | exact H2].
  - apply IH; [exact Hc |]. destruct Hm as [H1 H2].
    split; cbn; [exact H1 | now intros s [= <-]].
  - apply IH; [now apply counted_push_sequence | exact Hm].
  - destruct (IH (Datatypes.S lineno) St.init counted_init marked_init)
      as [Hout Hall].
    rewrite Hpr, Hout. cbn [fst]. split; [reflexivity |].
    intros c [<- | Hin]; [| now apply Hall].
    destruct (marked_record (Py.strip raw) st Hm Hq) as [H1 H2].
    repeat split; try assumption. now apply counted_record.
  - rewrite Hpr. cbn [fst]. rewrite app_nil_r. split; [reflexivity |].
    intros c [<- | []].
    destruct (marked_record (Py.strip raw) st Hm Hq) as [H1 H2].
    repeat split; try assumption. now apply counted_record.
  - apply IH; [now apply counted_push_quality | exact Hm].
Qed.

(** X16. Whatever the input, what a run writes on standard output is the
    lines printed by its calls to [print_fastq], in the order of the calls,
    followed, when the run ends in [die], by the message of [die], and
    nothing else. *)
Theorem output_is_renderings (get_columns : Z) (args : Args.t)
    (input : list string) :
  let r := start get_columns args input in
  output r
  = (map Line
       (flat_map (fun c => fst (print_fastq (default_columns get_columns args) c))
                 (calls r))
     ++ match exit r with
        | Died m => [Message m]
        | Finished _ | Raised _ => []
        end)%list.
Proof.
  intros r. subst r. unfold output. f_equal. f_equal.
  unfold start. destruct (bad_max_quality _); [reflexivity |].
  apply (loop_handed _ input 0 St.init counted_init marked_init).
Qed.

(** X17. Whatever the input, every record handed to [print_fastq] has a
    header that starts with [@], a separator that starts with [+], and as
    many quality characters as its sequence has uppercase letters. *)
Theorem handed_records_balanced (get_columns : Z) (args : Args.t)
    (input : list string) (c : Call.t) :
  In c (calls (start get_columns args input)) ->
  Py.startswith (Call.at_line c) "@" = true
  /\ Py.startswith (Call.plus_line c) "+" = true
  /\ String.length (ansistrip (Call.sequence c))
     = String.length (Call.quality c).
Proof.
  unfold start. destruct (bad_max_quality _); [intros [] |].
  apply (loop_handed _ input 0 St.init counted_init marked_init).
Qed.

End Handed.

Lemma handed_records_balanced_witness :
  String.length (ansistrip red_read) = String.length "!!!!".
Proof.
  refine (proj2 (proj2 (handed_records_balanced (A := SgrState) 80
                          (plain_args 4) (fed ["@r1"; red_read; "+"; "!!!!"])
                          {| Call.at_line := "@r1"; Call.sequence := red_read;
                             Call.plus_line := "+"; Call.quality := "!!!!" |}
                          _))).
  vm_compute. now left.
Defined.

(** ** Reads that are already coloured *)

Lemma sub_ansire_skip (a s : string) :
  sub_ansire (String.length a) (a ++ s) = sub_ansire 0 s.
Proof. induction a as [|c a IH]; [reflexivity | exact IH]. Qed.

Lemma sgr_params_cons (c : ascii) (r : string) :
  sgr_params (String c r) = true ->
  Ascii.eqb c "m" = false /\ Ascii.eqb c LF = false
  /\ Ascii.eqb c "K" = false /\ is_upper c = false /\ sgr_params r = true.
Proof.
  cbn [sgr_params]. intros H. apply andb_prop in H as [Hc Hr].
  repeat split; try exact Hr.
  - destruct (Ascii.eqb_spec c "m") as [-> |]; [discriminate Hc | reflexivity].
  - destruct (Ascii.eqb_spec c LF) as [-> |]; [discriminate Hc | reflexivity].
  - destruct (Ascii.eqb_spec c "K") as [-> |]; [discriminate Hc | reflexivity].
  - apply orb_prop in Hc as [Hd | Hs].
    + apply andb_prop in Hd as [_ Hd]. apply Z.leb_le in Hd.
      unfold is_upper. apply andb_false_intro1. apply Z.leb_gt.
      change (Py.ord "9") with 57 in Hd. change (Py.ord "A") with 65. lia.
    + apply Ascii.eqb_eq in Hs. now subst c.
Qed.

Lemma dot_lazy_m_params (p s : string) :
  sgr_params p = true ->
  dot_lazy_m (p ++ String "m" s) = Some (p ++ "m").
Proof.
  induction p as [|c p IH]; [reflexivity |].
  intros H. apply sgr_params_cons in H as [Hm [Hl [_ [_ Hp]]]].
  cbn [append dot_lazy_m]. now rewrite Hm, Hl, (IH Hp).
Qed.

Lemma sub_ansire_colour (p s : string) :
  sgr_params p = true ->
  sub_ansire 0 (piece_text (Colour p) ++ s) = sub_ansire 0 s.
Proof.
  intros Hp. cbn [piece_text append].
  rewrite append_assoc. cbn [append].
  assert (ansire_group (String ESC (String "[" (p ++ String "m" s)))
          = Some (p ++ "m")) as Hg.
  { cbn [ansire_group]. rewrite !Ascii.eqb_refl. cbn [andb].
    destruct p as [|c p]; [reflexivity |].
    destruct (sgr_params_cons _ _ Hp) as [_ [_ [Hk _]]].
    cbn [append]. rewrite Hk.
    exact (dot_lazy_m_params (String c p) s Hp). }
  cbn [sub_ansire]. rewrite Hg.
  change (String "m" s) with ("m" ++ s). rewrite <- append_assoc.
  apply sub_ansire_skip.
Qed.

Lemma sub_ansire_letters (u s : string) :
  all_upper u = true -> sub_ansire 0 (u ++ s) = u ++ sub_ansire 0 s.
Proof.
  induction u as [|c u IH]; [reflexivity |].
  intros H. pose proof (upper_no_escape _ H) as Hn.
  cbn [all_upper] in H. apply andb_prop in H as [_ Hu].
  cbn [no_escape] in Hn. apply andb_prop in Hn as [Hc _].
  apply negb_true_iff in Hc.
  cbn [append]. now rewrite (sub_ansire_keep _ _ Hc), (IH Hu).
Qed.

Lemma ansistrip_params (p : string) :
  sgr_params p = true -> ansistrip p = EmptyString.
Proof.
  induction p as [|c p IH]; [reflexivity |].
  intros H. apply sgr_params_cons in H as [_ [_ [_ [Hu Hp]]]].
  cbn [ansistrip]. now rewrite Hu, (IH Hp).
Qed.

Lemma coloured_read_texts (pieces : list piece) :
  forallb piece_ok pieces = true ->
  strip_color (Py.join (map piece_text pieces))
  = Py.join (map piece_letters pieces)
  /\ ansistrip (Py.join (map piece_text pieces))
     = Py.join (map piece_letters pieces).
Proof.
  unfold strip_color. induction pieces as [|p pieces IH]; [now split |].
  cbn [forallb map]. intros H. apply andb_prop in H as [Hp Hps].
  destruct (IH Hps) as [IH1 IH2]. rewrite !join_cons, ansistrip_append, IH2.
  destruct p as [u | params]; cbn [piece_ok] in Hp; cbn [piece_letters].
  - cbn [piece_text]. rewrite (sub_ansire_letters _ _ Hp), IH1.
    now rewrite (ansistrip_upper _ Hp).
  - rewrite (sub_ansire_colour _ _ Hp), IH1. split; [reflexivity |].
    cbn [piece_text ansistrip]. change (is_upper ESC) with false.
    cbn iota. cbn [append ansistrip]. change (is_upper "[") with false.
    cbn iota. rewrite ansistrip_append, (ansistrip_params _ Hp).
    reflexivity.
Qed.

(** X18. [colorless_len] accepts a read that is already coloured: on a line
    made of runs of uppercase letters and of colour codes [ESC [ params m]
    (parameters of digits and semicolons) it returns the number of
    letters. *)
Theorem coloured_read_measured (pieces : list piece) :
  forallb piece_ok pieces = true ->
  colorless_len (Py.join (map piece_text pieces))
  = inl (String.length (Py.join (map piece_letters pieces))).
Proof.
  intros H. destruct (coloured_read_texts pieces H) as [H1 H2].
  unfold colorless_len, ansilen. rewrite H1, H2. now rewrite Nat.eqb_refl.
Qed.

Lemma coloured_read_measured_witness :
  colorless_len (String ESC "[1;31mAC" ++ String ESC "[0mGT") = inl 4%nat.
Proof.
  exact (coloured_read_measured
           [Colour "1;31"; Letters "AC"; Colour "0"; Letters "GT"] eq_refl).
Defined.
